(** * Evil Grumbot: the server-lookup-and-response core of [evil_grumbot.py]

    A shallow embedding of the resolver ([get_server_from_channel],
    [get_server]), the status fetcher ([get_server_info],
    [get_players_query]), the response composer ([compose_response]) and the
    command handler ([send_data]).

    Python values are embedded as follows.
    - [int] is [Z]; the loop counter [count], which only counts up from 0,
      is [nat].
    - [str] is [string]; an f-string is a concatenation with [+:+], and
      [str_of_int] prints an [int] in decimal the way [str()] does.
    - A Python [list] is a mutable object.  [compose_response] appends to
      the list it receives, so lists of player names live in a store of
      list objects ([heap]) and are passed around as references ([loc]).
    - Exceptions are a result constructor; effects (network calls, logging,
      printing, replies) are recorded in a chronological [trace].
    - The network (the [mcstatus] library and the remote servers) is an
      oracle [Network]: the reply to the n-th call of each kind. *)

From Stdlib Require Import ZArith String Ascii DecimalString Bool List Lia.
From stdpp Require Import base list strings.

Local Open Scope string_scope.
Local Open Scope list_scope.

(** ** Strings *)

(** The line feed of the Python literal ["\n"]. *)
Definition nl : string := String (ascii_of_nat 10) EmptyString.

(** [str(n)] / [f"{n}"] for an [int]. *)
Definition str_of_int (n : Z) : string := NilZero.string_of_int (Z.to_int n).

(** [sep.join(l)] *)
Definition join (sep : string) (l : list string) : string := String.concat sep l.

(** ** Exceptions and results *)

(** The exception classes the program distinguishes.  [BaseExit] stands for
    the [BaseException]s that are not [Exception]s ([KeyboardInterrupt],
    [SystemExit], [asyncio.CancelledError]): [except Exception] lets them
    through. *)
Inductive exn : Type :=
| SocketTimeout (msg : string)
| ValueError (msg : string)
| TypeError (msg : string)
| OtherException (msg : string)
| BaseExit (msg : string).

(** [except socket.timeout] *)
Definition is_socket_timeout (e : exn) : bool :=
  match e with SocketTimeout _ => true | _ => false end.

(** [except ValueError] *)
Definition is_ValueError (e : exn) : bool :=
  match e with ValueError _ => true | _ => false end.

(** [except Exception] *)
Definition is_Exception (e : exn) : bool :=
  match e with BaseExit _ => false | _ => true end.

(** [str(e)] *)
Definition exn_str (e : exn) : string :=
  match e with
  | SocketTimeout m | ValueError m | TypeError m | OtherException m | BaseExit m => m
  end.

(** The outcome of running a piece of the program.  [Stuck] has no Python
    counterpart: it marks a read through a reference that was never
    allocated, or a loop that used up its fuel. *)
Inductive result (A : Type) : Type :=
| Return (a : A)
| Raise (e : exn)
| Stuck.
Arguments Return {A} a.
Arguments Raise {A} e.
Arguments Stuck {A}.

(** ** Data model *)

(** [class Server] *)
Record Server : Type := mkServer {
  name : string;
  ip : string;
  channels : list Z;
  secret : bool;
  supports_querying : bool
}.

(** The registry [servers]. *)
Definition servers : list Server :=
  [ mkServer "Survival" "173.233.142.94:25565"
      [930585547842404372%Z; 930322945040072734%Z] false false;
    mkServer "Events" "173.233.142.10:25565"
      [1241016401502928967%Z; 1237006920863453225%Z] false false;
    mkServer "Creative" "173.233.142.2:25565" [930324293840171028%Z] false false;
    mkServer "Testing" "173.233.142.3:25565" [646113723550924849%Z] true false;
    mkServer "Events Building" "140.238.96.87:25565" [] true false ].

(** [MAX_RETRIES = 5] *)
Definition MAX_RETRIES : nat := 5.

(** What the program reads of an [mcstatus] status response:
    [status.players.online], [status.players.max] and the [name] of each
    entry of [status.players.sample].  [sample] is [None] when the reply of
    the server has no sample, a list (possibly empty) when it has one. *)
Record Player : Type := mkPlayer { player_name : string }.

Record Players : Type := mkPlayers {
  online : Z;
  max : Z;
  sample : option (list Player)
}.

Record StatusResponse : Type := mkStatus { players : Players }.

(** The object [JavaServer.lookup] returns. *)
Record JavaServer : Type := mkJavaServer { address : string }.

(** What the handler reads of a [discord.Interaction]. *)
Record Interaction : Type := mkInteraction { channel_id : Z }.

(** ** The world: list objects and observable events *)

Definition loc : Type := nat.

Inductive log_level : Type := WARNING | ERROR.

Inductive event : Type :=
| EvLookup (addr : string)                (* JavaServer.lookup(addr) *)
| EvStatus (addr : string)                (* server_lookup.status() *)
| EvQuery (addr : string)                 (* server_lookup.query() *)
| EvLog (level : log_level) (msg : string) (* logging.warning / logging.error *)
| EvPrint (l : list string)               (* print(player_list) *)
| EvDefer (ephemeral : bool)              (* interaction.response.defer *)
| EvSend (content : string).              (* interaction.followup.send *)

Record World : Type := mkWorld {
  heap : list (list string);
  trace : list event
}.

Definition is_lookup (e : event) : bool :=
  match e with EvLookup _ => true | _ => false end.
Definition is_status (e : event) : bool :=
  match e with EvStatus _ => true | _ => false end.
Definition is_query (e : event) : bool :=
  match e with EvQuery _ => true | _ => false end.
Definition is_send (e : event) : bool :=
  match e with EvSend _ => true | _ => false end.

(** How many [JavaServer.lookup], [status()] and [query()] calls a trace
    holds. *)
Definition lookups (w : World) : nat := length (List.filter is_lookup (trace w)).
Definition attempts (w : World) : nat := length (List.filter is_status (trace w)).
Definition queries (w : World) : nat := length (List.filter is_query (trace w)).

(** The replies sent so far. *)
Definition sent (w : World) : list event := List.filter is_send (trace w).

(** The network oracle: the reply to the n-th [lookup], [status()] and
    [query()] call (counted from 0), by address. *)
Inductive reply (A : Type) : Type :=
| Answer (a : A)
| Failure (e : exn).
Arguments Answer {A} a.
Arguments Failure {A} e.

Record Network : Type := mkNetwork {
  lookup_reply : string -> nat -> option exn;
  status_reply : string -> nat -> reply StatusResponse;
  query_reply : string -> nat -> reply (list string)
}.

(** ** The monad of the program: state and exceptions *)

Definition M (A : Type) : Type := World -> result A * World.

Global Instance M_ret : MRet M := fun A (a : A) (w : World) => (Return a, w).

Global Instance M_bind : MBind M :=
  fun A B (f : A -> M B) (m : M A) (w : World) =>
    match m w with
    | (Return a, w') => f a w'
    | (Raise e, w') => (Raise e, w')
    | (Stuck, w') => (Stuck, w')
    end.

(** [raise e] *)
Global Instance M_throw : MThrow exn M :=
  fun A (e : exn) (w : World) => (Raise e, w).

Definition stuck {A : Type} : M A := fun w => (Stuck, w).

(** [try: body / except <class>: handler]: [handler e] is [None] when no
    [except] clause matches [e]. *)
Definition try_except {A : Type} (body : M A) (handler : exn -> option (M A)) : M A :=
  fun w =>
    match body w with
    | (Raise e, w') =>
        match handler e with
        | Some h => h w'
        | None => (Raise e, w')
        end
    | r => r
    end.

(** A function that only returns or raises, run inside the monad. *)
Definition lift {A : Type} (r : result A) : M A := fun w => (r, w).

Definition emit (e : event) : M unit :=
  fun w => (Return tt, mkWorld (heap w) (trace w ++ [e])).

(** *** List objects *)

(** A list display or comprehension: a new list object. *)
Definition new_list (l : list string) : M loc :=
  fun w => (Return (length (heap w)), mkWorld (heap w ++ [l]) (trace w)).

(** The current contents of a list object. *)
Definition list_read (r : loc) : M (list string) :=
  fun w => match heap w !! r with
           | Some l => (Return l, w)
           | None => (Stuck, w)
           end.

(** [len(r)] *)
Definition list_len (r : loc) : M Z := l ← list_read r; mret (Z.of_nat (length l)).

(** [r.append(x)] *)
Definition list_append (r : loc) (x : string) : M unit :=
  fun w => match heap w !! r with
           | Some l => (Return tt, mkWorld (<[r := l ++ [x]]> (heap w)) (trace w))
           | None => (Stuck, w)
           end.

(** ** The resolver *)

(** [channel_id in s.channels] *)
Definition in_channels (channel_id : Z) (s : Server) : bool :=
  existsb (Z.eqb channel_id) (channels s).

(** [get_server_from_channel], lines 86-99.  The module-level list [servers]
    the function scans is the parameter [registry]. *)
Fixpoint get_server_from_channel (registry : list Server) (channel_id : Z)
  : result Server :=
  match registry with
  | [] => Raise (ValueError ("Channel ID '" +:+ str_of_int channel_id +:+ "' not found."))
  | s :: rest =>
      if in_channels channel_id s then Return s
      else get_server_from_channel rest channel_id
  end.

(** [get_server], lines 102-115. *)
Fixpoint get_server (registry : list Server) (server : string) : result Server :=
  match registry with
  | [] => Raise (ValueError ("Server '" +:+ server +:+ "' not found."))
  | s :: rest =>
      if String.eqb (name s) server then Return s
      else get_server rest server
  end.

(** ** The response composer *)

(** [compose_response], lines 154-175.  [player_list] is a reference: the
    two [append]s change the caller's list object. *)
Definition compose_response (server : Server) (status : StatusResponse)
    (player_list : loc) : M string :=
  let server_name := "**Spooncraft " +:+ name server +:+ " Server**" +:+ nl in
  let player_count := online (players status) in
  let max_count := max (players status) in
  if (player_count =? 0)%Z then
    mret (server_name +:+ "**No online players**")
  else
    n ← list_len player_list;
    (if (n =? 0)%Z && (player_count >=? 1)%Z then
       list_append player_list "Anonymous Player"
     else if (n <? player_count)%Z then
       list_append player_list "..."
     else mret tt);;
    l ← list_read player_list;
    let players_str := join ", " l in
    mret (server_name +:+ "**Online players (" +:+ str_of_int player_count +:+ "/"
            +:+ str_of_int max_count +:+ "):**" +:+ nl +:+ "```" +:+ players_str
            +:+ "```").

Section Fetcher.

Variable net : Network.

(** ** Calls into [mcstatus], logging and the chat platform *)

(** [JavaServer.lookup(addr)] *)
Definition JavaServer_lookup (addr : string) : M JavaServer :=
  fun w =>
    let w' := mkWorld (heap w) (trace w ++ [EvLookup addr]) in
    match lookup_reply net addr (lookups w) with
    | None => (Return (mkJavaServer addr), w')
    | Some e => (Raise e, w')
    end.

(** [server_lookup.status()] *)
Definition JavaServer_status (server_lookup : JavaServer) : M StatusResponse :=
  fun w =>
    let w' := mkWorld (heap w) (trace w ++ [EvStatus (address server_lookup)]) in
    match status_reply net (address server_lookup) (attempts w) with
    | Answer st => (Return st, w')
    | Failure e => (Raise e, w')
    end.

(** [server_lookup.query().players.names]: the list object of the query
    response. *)
Definition JavaServer_query_names (server_lookup : JavaServer) : M loc :=
  fun w =>
    let w' := mkWorld (heap w) (trace w ++ [EvQuery (address server_lookup)]) in
    match query_reply net (address server_lookup) (queries w) with
    | Answer names => new_list names w'
    | Failure e => (Raise e, w')
    end.

Definition logging_warning (msg : string) : M unit := emit (EvLog WARNING msg).
Definition logging_error (msg : string) : M unit := emit (EvLog ERROR msg).

(** [print(player_list)] *)
Definition print (player_list : loc) : M unit :=
  l ← list_read player_list; emit (EvPrint l).

Definition response_defer (ephemeral : bool) : M unit := emit (EvDefer ephemeral).
Definition followup_send (content : string) : M unit := emit (EvSend content).

(** ** The status fetcher *)

(** One turn of the [while] loop of [get_server_info], lines 132-139:
    [inl r] when the turn executes [return r], [inr count'] when it ends
    with the counter at [count']. *)
Definition status_attempt (server_lookup : JavaServer) (count : nat)
  : M (option StatusResponse + nat) :=
  try_except
    (st ← JavaServer_status server_lookup; mret (inl (Some st)))
    (fun e =>
       if is_socket_timeout e then
         Some (logging_warning ("Status TimeoutError " +:+ str_of_int (Z.of_nat count));;
               mret (inr (count + 1)))
       else if is_Exception e then
         Some (logging_warning ("Status Unknown exception " +:+ exn_str e +:+ " "
                                  +:+ str_of_int (Z.of_nat count));;
               mret (inr (count + 1)))
       else None).

(** [while count < MAX_RETRIES: ...], then the implicit [return None]. *)
Fixpoint status_loop (fuel : nat) (server_lookup : JavaServer) (count : nat)
  : M (option StatusResponse) :=
  match fuel with
  | O => stuck
  | S fuel' =>
      if (count <? MAX_RETRIES)%nat then
        r ← status_attempt server_lookup count;
        match r with
        | inl v => mret v
        | inr count' => status_loop fuel' server_lookup count'
        end
      else mret None
  end.

(** [get_server_info], lines 118-139, with the loop given [fuel] turns. *)
Definition get_server_info_fuel (fuel : nat) (server : Server)
  : M (option StatusResponse) :=
  server_lookup ← JavaServer_lookup (ip server);
  status_loop fuel server_lookup 0.

(** [get_server_info]: the counter goes from 0 up to [MAX_RETRIES], so
    [MAX_RETRIES + 1] evaluations of the loop condition are enough
    ([get_server_info_fuel_enough]). *)
Definition get_server_info (server : Server) : M (option StatusResponse) :=
  get_server_info_fuel (S MAX_RETRIES) server.

(** [get_players_query], lines 142-151. *)
Definition get_players_query (server : Server) : M loc :=
  server_lookup ← JavaServer_lookup (ip server);
  JavaServer_query_names server_lookup.

(** ** The command handler *)

(** The module-level list [servers], as the handler's functions read it. *)
Variable registry : list Server.

(** What the list comprehension of line 226 keeps of a sample that is a
    list. *)
Definition sample_names (l : list Player) : list string :=
  map player_name
    (List.filter (fun i => negb (String.eqb (player_name i) "Anonymous Player")) l).

(** What iterating [None] raises. *)
Definition none_not_iterable : exn := TypeError "'NoneType' object is not iterable".

(** The list comprehension of line 226: a new list object, or the
    [TypeError] of the [for] over a [status.players.sample] that is [None]. *)
Definition names_from_sample (status : StatusResponse) : M loc :=
  match sample (players status) with
  | Some l => new_list (sample_names l)
  | None => mthrow none_not_iterable
  end.

(** Lines 194-203 of [send_data]: the choice of [selected_server].  [None]
    stands for the [return] of the [except ValueError] branch. *)
Definition select_server (interaction : Interaction) (server : string)
  : M (option Server) :=
  if String.eqb server "Default" then
    try_except
      (s ← lift (get_server_from_channel registry (channel_id interaction));
       mret (Some s))
      (fun e =>
         if is_ValueError e then
           Some (followup_send ("**You must either select a server "
                                  +:+ "or be in a recognised channel**");;
                 mret None)
         else None)
  else
    s ← lift (get_server registry server); mret (Some s).

(** Lines 217-226 of [send_data]: the list object [player_list] refers to
    when line 227 is reached. *)
Definition collect_player_list (selected_server : Server) (status : StatusResponse)
  : M loc :=
  player_list ← new_list [];
  player_list ←
    (if supports_querying selected_server then
       try_except
         (player_list ← get_players_query selected_server;
          print player_list;;
          mret player_list)
         (fun e =>
            if is_socket_timeout e then
              Some (logging_error ("Using backup for '" +:+ name selected_server
                                     +:+ "', despite being supported.");;
                    mret player_list)
            else None)
     else mret player_list);
  n ← list_len player_list;
  if (n =? 0)%Z then names_from_sample status
  else mret player_list.

(** [send_data], lines 182-230. *)
Definition send_data (interaction : Interaction) (server : string) (hidden : bool)
  : M unit :=
  response_defer hidden;;
  sel ← select_server interaction server;
  match sel with
  | None => mret tt
  | Some selected_server =>
      status ← get_server_info selected_server;
      match status with
      | None => followup_send "**An unexpected error occurred**"
      | Some status =>
          if (online (players status) =? 0)%Z then
            empty ← new_list [];
            content ← compose_response selected_server status empty;
            followup_send content
          else
            player_list ← collect_player_list selected_server status;
            print player_list;;
            content ← compose_response selected_server status player_list;
            followup_send content
      end
  end.

End Fetcher.

(** ** The selectable names *)

(** [server_type], line 82: the names of all entries. *)
Definition server_type (registry : list Server) : list string := map name registry.

(** [server_options], line 83: "Default", then the names of the entries that
    are not secret. *)
Definition server_options (registry : list Server) : list string :=
  "Default" :: map name (List.filter (fun s => negb (secret s)) registry).

(** ** The ready handler of [MyBot] *)

(** What [on_ready] reads of a guild: [server.id] and [server.name]. *)
Record Guild : Type := mkGuild { guild_id : Z; guild_name : string }.

Inductive bot_event : Type :=
| BotSync (guild : option Z)     (* tree.sync() / tree.sync(guild=Object(id)) *)
| BotInfo (msg : string).        (* logging.info *)

(** The bot: [self.synced], [self.guilds], and what it has done so far. *)
Record MyBot : Type := mkMyBot {
  synced : bool;
  guilds : list Guild;
  bot_trace : list bot_event
}.

Definition is_sync (e : bot_event) : bool :=
  match e with BotSync _ => true | _ => false end.

(** How many [tree.sync] calls the bot has made. *)
Definition syncs (b : MyBot) : nat := length (List.filter is_sync (bot_trace b)).

(** [MyBot.__init__], line 28: [self.synced = False]. *)
Definition MyBot_init (gs : list Guild) : MyBot := mkMyBot false gs [].

Definition bot_emit (e : bot_event) (b : MyBot) : MyBot :=
  mkMyBot (synced b) (guilds b) (bot_trace b ++ [e]).

Section Ready.

(** The chat platform: the n-th [tree.sync] call (counted from 0) raises
    [sync_reply n], or succeeds. *)
Variable sync_reply : nat -> option exn.

(** [await tree.sync(...)] *)
Definition tree_sync (guild : option Z) (b : MyBot) : result unit * MyBot :=
  match sync_reply (syncs b) with
  | None => (Return tt, bot_emit (BotSync guild) b)
  | Some e => (Raise e, bot_emit (BotSync guild) b)
  end.

(** The [for server in self.guilds] loop of [on_ready], lines 37-39. *)
Fixpoint sync_guilds (gs : list Guild) (b : MyBot) : result unit * MyBot :=
  match gs with
  | [] => (Return tt, b)
  | server :: rest =>
      match tree_sync (Some (guild_id server)) b with
      | (Return _, b1) =>
          sync_guilds rest (bot_emit (BotInfo ("- " +:+ guild_name server)) b1)
      | (Raise e, b1) => (Raise e, b1)
      | (Stuck, b1) => (Stuck, b1)
      end
  end.

(** [MyBot.on_ready], lines 30-41. *)
Definition on_ready (b : MyBot) : result unit * MyBot :=
  let ready (b : MyBot) := (Return tt, bot_emit (BotInfo "Ready!") b) in
  if negb (synced b) then
    match tree_sync None b with
    | (Return _, b1) =>
        match sync_guilds (guilds b1) b1 with
        | (Return _, b2) =>
            ready (mkMyBot true (guilds b2) (bot_trace b2))
        | (Raise e, b2) => (Raise e, b2)
        | (Stuck, b2) => (Stuck, b2)
        end
    | (Raise e, b1) => (Raise e, b1)
    | (Stuck, b1) => (Stuck, b1)
    end
  else ready b.

End Ready.

(** * Definitions used in the statements *)

(** The message of the [ValueError] of [get_server_from_channel]. *)
Definition channel_not_found (channel_id : Z) : exn :=
  ValueError ("Channel ID '" +:+ str_of_int channel_id +:+ "' not found.").

(** The first line of every response. *)
Definition header (server : Server) : string :=
  "**Spooncraft " +:+ name server +:+ " Server**" +:+ nl.

(** The response for a non-zero count, listing [entries]. *)
Definition online_response (server : Server) (status : StatusResponse)
    (entries : list string) : string :=
  header server +:+ "**Online players (" +:+ str_of_int (online (players status))
    +:+ "/" +:+ str_of_int (max (players status)) +:+ "):**" +:+ nl +:+ "```"
    +:+ join ", " entries +:+ "```".

(** The entries [compose_response] lists when it is given a list object
    that holds [names], for a non-zero count. *)
Definition listed (status : StatusResponse) (names : list string) : list string :=
  if (Z.of_nat (length names) =? 0)%Z && (online (players status) >=? 1)%Z then
    names ++ ["Anonymous Player"]
  else if (Z.of_nat (length names) <? online (players status))%Z then
    names ++ ["..."]
  else names.

(** The world after further events. *)
Definition push (w : World) (evs : list event) : World :=
  mkWorld (heap w) (trace w ++ evs).

(** The warning logged for a failed attempt. *)
Definition failure_warning (e : exn) (count : nat) : event :=
  EvLog WARNING
    (if is_socket_timeout e then
       "Status TimeoutError " +:+ str_of_int (Z.of_nat count)
     else
       "Status Unknown exception " +:+ exn_str e +:+ " "
         +:+ str_of_int (Z.of_nat count)).

(** The events of [n] failed attempts in a row, the first of which is the
    [first]-th [status()] call and finds the counter at [count]. *)
Fixpoint retry_events (net : Network) (addr : string) (first count n : nat)
  : list event :=
  match n with
  | O => []
  | S n' =>
      EvStatus addr
        :: match status_reply net addr first with
           | Failure e => [failure_warning e count]
           | Answer _ => []
           end
        ++ retry_events net addr (S first) (S count) n'
  end.

(** The events of the retry loop: [status()] calls and log lines. *)
Definition is_fetch_event (ev : event) : bool :=
  match ev with EvStatus _ | EvLog _ _ => true | _ => false end.

(** The world after the allocation of further list objects and further
    events. *)
Definition extend (w : World) (objs : list (list string)) (evs : list event) : World :=
  mkWorld (heap w ++ objs) (trace w ++ evs).

(** The outcome of the fallback of line 226 in a world that holds the new
    list objects [objs]: one more list object, with the names kept of the
    sample, or the [TypeError] when the status has no sample. *)
Definition fallback_outcome (st : StatusResponse) (w : World)
    (objs : list (list string)) (evs : list event) : result loc * World :=
  match sample (players st) with
  | Some l =>
      (Return (length (heap w) + length objs),
       extend w (objs ++ [sample_names l]) evs)
  | None => (Raise none_not_iterable, extend w objs evs)
  end.

(** The error line of the fallback. *)
Definition backup_log (s : Server) : event :=
  EvLog ERROR ("Using backup for '" +:+ name s +:+ "', despite being supported.").

(** The reply to an invocation from a channel no server is bound to. *)
Definition guidance : string :=
  "**You must either select a server " +:+ "or be in a recognised channel**".

(** [s] is the server lines 194-203 select. *)
Definition selected (registry : list Server) (interaction : Interaction)
    (server : string) (s : Server) : Prop :=
  (server = "Default"
   /\ get_server_from_channel registry (channel_id interaction) = Return s)
  \/ (server <> "Default" /\ get_server registry server = Return s).

(** The run [run] of the handler composes its reply from [names]: it is
    lines 227-229 run on a list object that holds [names], and so returns
    after printing [names] and sending the response composed from them. *)
Definition composes_from (run : result unit * World) (s : Server)
    (st : StatusResponse) (names : list string) : Prop :=
  (exists l w2,
     heap w2 !! l = Some names
     /\ run = (print l;;
               content ← compose_response s st l;
               followup_send content) w2)
  /\ run.1 = Return tt
  /\ exists tr,
       trace run.2
       = tr ++ [EvPrint names; EvSend (online_response s st (listed st names))].

(** The [i]-th status attempt counted from world [w] fails with an exception
    the retry loop catches. *)
Definition caught_failure (net : Network) (addr : string) (w : World) (i : nat)
  : Prop :=
  exists e, status_reply net addr (attempts w + i) = Failure e
            /\ is_Exception e = true.

(** The same, as a test. *)
Definition caught_failureb (net : Network) (addr : string) (w : World) (i : nat)
  : bool :=
  match status_reply net addr (attempts w + i) with
  | Failure e => is_Exception e
  | Answer _ => false
  end.

Definition is_defer (e : event) : bool :=
  match e with EvDefer _ => true | _ => false end.

(** The events of one [on_ready] that syncs the guilds [gs]. *)
Definition guild_sync_events (gs : list Guild) : list bot_event :=
  flat_map (fun g => [BotSync (Some (guild_id g)); BotInfo ("- " +:+ guild_name g)]) gs.

(** ** Servers, statuses, worlds and networks of the examples *)

(** The first entry of [servers]. *)
Definition survival : Server :=
  mkServer "Survival" "173.233.142.94:25565"
    [930585547842404372%Z; 930322945040072734%Z] false false.

(** [Survival] with [supports_querying] left at the default of the constructor
    of [Server], [True]. *)
Definition survival_querying : Server :=
  mkServer "Survival" "173.233.142.94:25565"
    [930585547842404372%Z; 930322945040072734%Z] false true.

(** A registry whose only entry supports querying. *)
Definition registry_querying : list Server := [survival_querying].

(** An invocation from the first channel of [Survival]. *)
Definition from_survival_channel : Interaction := mkInteraction 930585547842404372.

(** Nobody online. *)
Definition status_none_online : StatusResponse := mkStatus (mkPlayers 0 20 None).

(** Two players online, none of them in the sample. *)
Definition status_hidden_two : StatusResponse := mkStatus (mkPlayers 2 20 (Some [])).

(** Two players online, and a reply that has no sample. *)
Definition status_no_sample : StatusResponse := mkStatus (mkPlayers 2 20 None).

(** Three players online, two of them in the sample. *)
Definition status_three : StatusResponse :=
  mkStatus (mkPlayers 3 20 (Some [mkPlayer "Alice"; mkPlayer "Bob"])).

(** No list object, no event. *)
Definition world_empty : World := mkWorld [] [].

(** A world whose only list object is an empty list. *)
Definition world_one_empty_list : World := mkWorld [[]] [].

(** One list object, holding two names. *)
Definition world_alice_bob : World := mkWorld [["Alice"; "Bob"]] [].

(** The same names in the second of two list objects. *)
Definition world_two_lists : World := mkWorld [[]; ["Alice"; "Bob"]] [].

(** One list object, holding three names. *)
Definition world_three_names : World := mkWorld [["Alice"; "Bob"; "Carol"]] [].

(** Every status attempt and every query times out. *)
Definition net_always_timeout : Network :=
  mkNetwork (fun _ _ => None) (fun _ _ => Failure (SocketTimeout "timed out"))
    (fun _ _ => Failure (SocketTimeout "timed out")).

(** The first two status attempts time out, the third answers. *)
Definition net_flaky : Network :=
  mkNetwork (fun _ _ => None)
    (fun _ n => if (n <? 2)%nat then Failure (SocketTimeout "timed out")
                else Answer status_three)
    (fun _ _ => Failure (SocketTimeout "timed out")).

(** The status protocol answers, the query times out. *)
Definition net_query_timeout : Network :=
  mkNetwork (fun _ _ => None) (fun _ _ => Answer status_three)
    (fun _ _ => Failure (SocketTimeout "timed out")).

(** The status protocol answers, the query port refuses the connection. *)
Definition net_query_refused : Network :=
  mkNetwork (fun _ _ => None) (fun _ _ => Answer status_three)
    (fun _ _ => Failure (OtherException "[Errno 111] Connection refused")).

(** The address lookup fails. *)
Definition net_lookup_fails : Network :=
  mkNetwork (fun _ _ => Some (OtherException "lookup failed"))
    (fun _ _ => Answer status_three) (fun _ _ => Answer []).

(** The first status attempt times out, the second is interrupted. *)
Definition net_interrupted : Network :=
  mkNetwork (fun _ _ => None)
    (fun _ n => if (n <? 1)%nat then Failure (SocketTimeout "timed out")
                else Failure (BaseExit "KeyboardInterrupt"))
    (fun _ _ => Answer []).

(** The query answers with three names. *)
Definition net_query_three : Network :=
  mkNetwork (fun _ _ => None) (fun _ _ => Answer status_three)
    (fun _ _ => Answer ["Alice"; "Bob"; "Carol"]).

(** Two players online, both hidden behind the sentinel name. *)
Definition status_anonymous_two : StatusResponse :=
  mkStatus (mkPlayers 2 20
              (Some [mkPlayer "Anonymous Player"; mkPlayer "Anonymous Player"])).

(** The status protocol answers with [status_anonymous_two]. *)
Definition net_anonymous : Network :=
  mkNetwork (fun _ _ => None) (fun _ _ => Answer status_anonymous_two)
    (fun _ _ => Answer []).

(** Two guilds. *)
Definition two_guilds : list Guild := [mkGuild 1 "Spooncraft"; mkGuild 2 "Builders"].

(** Every [tree.sync] succeeds. *)
Definition sync_always_ok : nat -> option exn := fun _ => None.

(** The second [tree.sync] call, the one for the first guild, fails. *)
Definition sync_second_fails : nat -> option exn :=
  fun n => if (n =? 1)%nat then Some (OtherException "HTTPException") else None.

(** The status protocol answers that nobody is online; the query would
    answer with one name. *)
Definition net_nobody : Network :=
  mkNetwork (fun _ _ => None) (fun _ _ => Answer status_none_online)
    (fun _ _ => Answer ["Alice"]).

(** The world of an invocation once the status has been fetched at the first
    attempt. *)
Definition world_after_status : World :=
  push world_empty
    [EvDefer true; EvLookup "173.233.142.94:25565"; EvStatus "173.233.142.94:25565"].

(** The status protocol answers with [status_no_sample]; the query times
    out. *)
Definition net_no_sample_timeout : Network :=
  mkNetwork (fun _ _ => None) (fun _ _ => Answer status_no_sample)
    (fun _ _ => Failure (SocketTimeout "timed out")).

(** The status protocol answers with [status_no_sample]; the query answers
    with an empty list. *)
Definition net_no_sample_empty : Network :=
  mkNetwork (fun _ _ => None) (fun _ _ => Answer status_no_sample)
    (fun _ _ => Answer []).

(** * Properties *)

(** ** The resolver *)

Lemma in_channels_spec (channel_id : Z) (s : Server) :
  in_channels channel_id s = true <-> channel_id ∈ channels s.
Proof.
  unfold in_channels. rewrite existsb_exists, list_elem_of_In. split.
  - intros (x & Hin & Heq). apply Z.eqb_eq in Heq. now subst.
  - intros Hin. exists channel_id. split; [exact Hin | apply Z.eqb_refl].
Qed.

Lemma in_channels_false (channel_id : Z) (s : Server) :
  in_channels channel_id s = false <-> channel_id ∉ channels s.
Proof.
  rewrite <- in_channels_spec. destruct (in_channels channel_id s); split; congruence.
Qed.

Lemma get_server_from_channel_skip (before rest : list Server) (channel_id : Z) :
  Forall (fun t => channel_id ∉ channels t) before ->
  get_server_from_channel (before ++ rest) channel_id
  = get_server_from_channel rest channel_id.
Proof.
  induction 1 as [| t before Ht _ IH]; [reflexivity |].
  apply in_channels_false in Ht. cbn. now rewrite Ht.
Qed.

Lemma get_server_from_channel_found (registry : list Server) (channel_id : Z)
    (s : Server) :
  get_server_from_channel registry channel_id = Return s ->
  exists before after,
    registry = before ++ s :: after
    /\ channel_id ∈ channels s
    /\ Forall (fun t => channel_id ∉ channels t) before.
Proof.
  induction registry as [| t rest IH]; cbn; [discriminate |].
  destruct (in_channels channel_id t) eqn:Ht.
  - intros [= <-]. exists [], rest. repeat split; [| constructor].
    now apply in_channels_spec.
  - intros Hrest. destruct (IH Hrest) as (before & after & -> & Hs & Hbefore).
    exists (t :: before), after. repeat split; [exact Hs |].
    constructor; [now apply in_channels_false | exact Hbefore].
Qed.

Lemma get_server_from_channel_missing (registry : list Server) (channel_id : Z) :
  get_server_from_channel registry channel_id = Raise (channel_not_found channel_id)
  <-> Forall (fun t => channel_id ∉ channels t) registry.
Proof.
  induction registry as [| t rest IH]; cbn.
  - split; [constructor | reflexivity].
  - destruct (in_channels channel_id t) eqn:Ht.
    + split; [discriminate |].
      intros H. apply Forall_cons in H as [H _].
      apply in_channels_false in H. congruence.
    + rewrite IH, Forall_cons. apply in_channels_false in Ht. tauto.
Qed.

Lemma get_server_from_channel_outcome (registry : list Server) (channel_id : Z) :
  (exists s, get_server_from_channel registry channel_id = Return s)
  \/ get_server_from_channel registry channel_id = Raise (channel_not_found channel_id).
Proof.
  induction registry as [| t rest IH]; cbn; [now right |].
  destruct (in_channels channel_id t); [left; eauto | exact IH].
Qed.

(** C7.  For every registry and channel id, [get_server_from_channel]
    returns [s] exactly when [s] is the first entry, in registry order,
    whose channel list contains the id; it raises its [ValueError] exactly
    when no entry's channel list contains the id; and it has no third
    outcome. *)
Theorem get_server_from_channel_first_match (registry : list Server) (channel_id : Z) :
  (forall s,
     get_server_from_channel registry channel_id = Return s
     <-> exists before after,
           registry = before ++ s :: after
           /\ channel_id ∈ channels s
           /\ Forall (fun t => channel_id ∉ channels t) before)
  /\ (get_server_from_channel registry channel_id = Raise (channel_not_found channel_id)
      <-> Forall (fun t => channel_id ∉ channels t) registry)
  /\ ((exists s, get_server_from_channel registry channel_id = Return s)
      \/ get_server_from_channel registry channel_id
         = Raise (channel_not_found channel_id)).
Proof.
  split; [| split].
  - intros s. split; [apply get_server_from_channel_found |].
    intros (before & after & -> & Hs & Hbefore).
    rewrite get_server_from_channel_skip by exact Hbefore.
    apply in_channels_spec in Hs. cbn. now rewrite Hs.
  - apply get_server_from_channel_missing.
  - apply get_server_from_channel_outcome.
Qed.

(** End-to-end scenario 1: the first channel of [Survival] resolves to it. *)
Example resolve_survival :
  get_server_from_channel servers 930585547842404372
  = Return (mkServer "Survival" "173.233.142.94:25565"
              [930585547842404372%Z; 930322945040072734%Z] false false).
Proof. reflexivity. Qed.

(** ** Running the monad *)

Lemma bind_Return {A B : Type} (m : M A) (f : A -> M B) (w w' : World) (a : A) :
  m w = (Return a, w') -> (m ≫= f) w = f a w'.
Proof. intros H. unfold mbind, M_bind. now rewrite H. Qed.

Lemma bind_Raise {A B : Type} (m : M A) (f : A -> M B) (w w' : World) (e : exn) :
  m w = (Raise e, w') -> (m ≫= f) w = (Raise e, w').
Proof. intros H. unfold mbind, M_bind. now rewrite H. Qed.

Lemma list_read_Some (r : loc) (w : World) (l : list string) :
  heap w !! r = Some l -> list_read r w = (Return l, w).
Proof. intros H. unfold list_read. now rewrite H. Qed.

Lemma list_len_Some (r : loc) (w : World) (l : list string) :
  heap w !! r = Some l -> list_len r w = (Return (Z.of_nat (length l)), w).
Proof.
  intros H. unfold list_len. now rewrite (bind_Return _ _ _ _ _ (list_read_Some _ _ _ H)).
Qed.

Lemma list_append_Some (r : loc) (x : string) (w : World) (l : list string) :
  heap w !! r = Some l ->
  list_append r x w = (Return tt, mkWorld (<[r := l ++ [x]]> (heap w)) (trace w)).
Proof. intros H. unfold list_append. now rewrite H. Qed.

Lemma heap_insert_lookup (h : list (list string)) (r : loc) (l l' : list string) :
  h !! r = Some l -> <[r := l']> h !! r = Some l'.
Proof. intros H. apply list_lookup_insert_eq. eapply lookup_lt_Some, H. Qed.

(** ** The response composer *)

Lemma compose_response_zero (server : Server) (status : StatusResponse)
    (player_list : loc) (w : World) :
  online (players status) = 0%Z ->
  compose_response server status player_list w
  = (Return (header server +:+ "**No online players**"), w).
Proof. intros H. unfold compose_response. rewrite H. reflexivity. Qed.

Lemma compose_response_online (server : Server) (status : StatusResponse)
    (player_list : loc) (w : World) (names : list string) :
  online (players status) <> 0%Z ->
  heap w !! player_list = Some names ->
  compose_response server status player_list w
  = (Return (online_response server status (listed status names)),
     mkWorld (<[player_list := listed status names]> (heap w)) (trace w)).
Proof.
  intros Hon Hl. unfold compose_response, listed.
  apply Z.eqb_neq in Hon. rewrite Hon.
  rewrite (bind_Return _ _ _ _ _ (list_len_Some _ _ _ Hl)).
  destruct ((Z.of_nat (length names) =? 0)%Z && (online (players status) >=? 1)%Z).
  - rewrite (bind_Return _ _ _ _ _ (list_append_Some _ _ _ _ Hl)).
    erewrite bind_Return
      by (apply list_read_Some; cbn; eapply heap_insert_lookup, Hl).
    reflexivity.
  - destruct (Z.of_nat (length names) <? online (players status))%Z.
    + rewrite (bind_Return _ _ _ _ _ (list_append_Some _ _ _ _ Hl)).
      erewrite bind_Return
        by (apply list_read_Some; cbn; eapply heap_insert_lookup, Hl).
      reflexivity.
    + erewrite bind_Return by reflexivity.
      rewrite (bind_Return _ _ _ _ _ (list_read_Some _ _ _ Hl)).
      rewrite list_insert_id by exact Hl. now destruct w.
Qed.

Lemma compose_response_dangling (server : Server) (status : StatusResponse)
    (player_list : loc) (w : World) :
  online (players status) <> 0%Z ->
  heap w !! player_list = None ->
  compose_response server status player_list w = (Stuck, w).
Proof.
  intros Hon Hl. unfold compose_response.
  apply Z.eqb_neq in Hon. rewrite Hon.
  unfold list_len. unfold mbind, M_bind, list_read. now rewrite Hl.
Qed.

Lemma listed_empty (status : StatusResponse) :
  (1 <= online (players status))%Z -> listed status [] = ["Anonymous Player"].
Proof.
  intros H. unfold listed. cbn [length].
  replace (online (players status) >=? 1)%Z with true; [reflexivity |].
  symmetry. rewrite Z.geb_leb. now apply Z.leb_le.
Qed.

Lemma listed_short (status : StatusResponse) (names : list string) :
  names <> [] ->
  (Z.of_nat (length names) < online (players status))%Z ->
  listed status names = names ++ ["..."].
Proof.
  intros Hne Hlt. unfold listed.
  replace (Z.of_nat (length names) =? 0)%Z with false.
  - apply Z.ltb_lt in Hlt. now rewrite Hlt.
  - symmetry. apply Z.eqb_neq. destruct names; [congruence | cbn; lia].
Qed.

Lemma listed_full (status : StatusResponse) (names : list string) :
  (online (players status) <= Z.of_nat (length names))%Z ->
  listed status names = names.
Proof.
  intros Hle. unfold listed.
  replace (Z.of_nat (length names) <? online (players status))%Z with false
    by (symmetry; apply Z.ltb_ge; exact Hle).
  destruct (Z.of_nat (length names) =? 0)%Z eqn:H0; [| reflexivity].
  replace (online (players status) >=? 1)%Z with false; [reflexivity |].
  symmetry. rewrite Z.geb_leb. apply Z.leb_gt. apply Z.eqb_eq in H0. lia.
Qed.

Lemma append_assoc (s1 s2 s3 : string) : (s1 +:+ s2) +:+ s3 = s1 +:+ (s2 +:+ s3).
Proof.
  induction s1 as [| c s1 IH]; [reflexivity |].
  change (String c ((s1 +:+ s2) +:+ s3) = String c (s1 +:+ (s2 +:+ s3))).
  now rewrite IH.
Qed.

Lemma join_snoc (sep : string) (l : list string) (x : string) :
  l <> [] -> join sep (l ++ [x]) = join sep l +:+ sep +:+ x.
Proof.
  unfold join. induction l as [| a l IH]; [congruence |]. intros _.
  destruct l as [| b l].
  - reflexivity.
  - change (String.concat sep ((a :: b :: l) ++ [x]))
      with (a +:+ sep +:+ String.concat sep ((b :: l) ++ [x])).
    rewrite IH by discriminate.
    change (String.concat sep (a :: b :: l))
      with (a +:+ sep +:+ String.concat sep (b :: l)).
    now rewrite !append_assoc.
Qed.

Lemma compose_response_full_list (server : Server) (status : StatusResponse)
    (player_list : loc) (w : World) (names : list string) :
  heap w !! player_list = Some names ->
  (online (players status) <= Z.of_nat (length names))%Z ->
  exists r, compose_response server status player_list w = (Return r, w).
Proof.
  intros Hl Hle. destruct (Z.eq_dec (online (players status)) 0%Z) as [H0 | H0].
  - eexists. now apply compose_response_zero.
  - eexists. rewrite (compose_response_online server status player_list w names)
      by assumption.
    rewrite listed_full by exact Hle.
    rewrite list_insert_id by exact Hl. now destruct w.
Qed.

(** C4.  When the online count is 0, [compose_response] returns the header
    followed by the fixed "No online players" line, whatever list object it
    is given and whatever that object holds; it does not touch the world. *)
Theorem compose_response_no_players (server : Server) (status : StatusResponse)
    (player_list : loc) (w : World) :
  online (players status) = 0%Z ->
  compose_response server status player_list w
  = (Return ("**Spooncraft " +:+ name server +:+ " Server**" +:+ nl
               +:+ "**No online players**"), w).
Proof.
  intros H. rewrite compose_response_zero by exact H.
  unfold header. now rewrite !append_assoc.
Qed.

(** C5.  When the list is empty and the online count is at least 1, the
    response lists exactly one entry, "Anonymous Player", with no "..."
    entry: the joined list is the text "Anonymous Player". *)
Theorem compose_response_anonymous (server : Server) (status : StatusResponse)
    (player_list : loc) (w : World) :
  heap w !! player_list = Some [] ->
  (1 <= online (players status))%Z ->
  (compose_response server status player_list w).1
  = Return (online_response server status ["Anonymous Player"])
  /\ heap (compose_response server status player_list w).2 !! player_list
     = Some ["Anonymous Player"]
  /\ join ", " ["Anonymous Player"] = "Anonymous Player".
Proof.
  intros Hl Hon.
  rewrite (compose_response_online server status player_list w []) by (lia || exact Hl).
  rewrite listed_empty by exact Hon. cbn [fst snd heap].
  repeat split. eapply heap_insert_lookup, Hl.
Qed.

(** C6.  When the list is non-empty and shorter than the online count, the
    response lists the given names followed by a final "..." entry, joined
    with ", "; when the list is at least as long as the online count, no
    entry is appended: the list object is left as it is and the response
    lists the given names (or, for a count of 0, no names at all). *)
Theorem compose_response_ellipsis (server : Server) (status : StatusResponse)
    (player_list : loc) (w : World) (names : list string) :
  heap w !! player_list = Some names ->
  (names <> [] ->
   (Z.of_nat (length names) < online (players status))%Z ->
   (compose_response server status player_list w).1
   = Return (online_response server status (names ++ ["..."]))
   /\ join ", " (names ++ ["..."]) = join ", " names +:+ ", " +:+ "...")
  /\ ((online (players status) <= Z.of_nat (length names))%Z ->
      compose_response server status player_list w
      = (Return (if (online (players status) =? 0)%Z
                 then header server +:+ "**No online players**"
                 else online_response server status names), w)).
Proof.
  intros Hl. split.
  - intros Hne Hlt.
    rewrite (compose_response_online server status player_list w names)
      by (lia || exact Hl).
    rewrite listed_short by assumption. split; [reflexivity |].
    now apply join_snoc.
  - intros Hle. destruct (online (players status) =? 0)%Z eqn:H0.
    + apply Z.eqb_eq in H0. now apply compose_response_zero.
    + apply Z.eqb_neq in H0.
      rewrite (compose_response_online server status player_list w names)
        by assumption.
      rewrite listed_full by exact Hle.
      rewrite list_insert_id by exact Hl. now destruct w.
Qed.

(** C9.  [compose_response] changes the list object it is given: for an
    online count of at least 1, an empty list holds "Anonymous Player"
    after the call, and a non-empty list shorter than the count holds its
    former entries followed by "...".  In both cases the object no longer
    holds what it held before the call. *)
Theorem compose_response_appends (server : Server) (status : StatusResponse)
    (player_list : loc) (w : World) (names : list string) :
  heap w !! player_list = Some names ->
  (1 <= online (players status))%Z ->
  (names = [] ->
   heap (compose_response server status player_list w).2
   = <[player_list := ["Anonymous Player"]]> (heap w))
  /\ (names <> [] ->
      (Z.of_nat (length names) < online (players status))%Z ->
      heap (compose_response server status player_list w).2
      = <[player_list := names ++ ["..."]]> (heap w))
  /\ (names = [] \/ (Z.of_nat (length names) < online (players status))%Z ->
      heap (compose_response server status player_list w).2 !! player_list
      <> Some names).
Proof.
  intros Hl Hon.
  rewrite (compose_response_online server status player_list w names)
    by (lia || exact Hl).
  cbn [snd heap]. split; [| split].
  - intros ->. now rewrite listed_empty.
  - intros Hne Hlt. now rewrite listed_short.
  - intros Hcase. rewrite (heap_insert_lookup _ _ _ _ Hl). intros [= Heq].
    destruct names as [| a names].
    + rewrite listed_empty in Heq by exact Hon. discriminate.
    + rewrite listed_short in Heq by (discriminate || (destruct Hcase; [discriminate | assumption])).
      apply (f_equal (@length string)) in Heq. rewrite length_app in Heq. cbn in Heq. lia.
Qed.

(** *** Purity *)

(** The call changes the list object it is given, and a second call with
    the same server, status and list object returns another text. *)
Lemma compose_response_not_pure :
  let first := compose_response survival status_hidden_two 0 world_one_empty_list in
  let second := compose_response survival status_hidden_two 0 first.2 in
  heap world_one_empty_list !! 0 = Some []
  /\ heap first.2 !! 0 = Some ["Anonymous Player"]
  /\ first.1 = Return (online_response survival status_hidden_two ["Anonymous Player"])
  /\ second.1 = Return (online_response survival status_hidden_two
                          ["Anonymous Player"; "..."])
  /\ first.1 <> second.1
  /\ first.2 <> world_one_empty_list.
Proof.
  cbv zeta. repeat split; try reflexivity; vm_compute; discriminate.
Qed.

Lemma compose_response_trace (server : Server) (status : StatusResponse)
    (player_list : loc) (w : World) :
  trace (compose_response server status player_list w).2 = trace w.
Proof.
  destruct (Z.eq_dec (online (players status)) 0%Z) as [H0 | H0].
  - now rewrite compose_response_zero.
  - destruct (heap w !! player_list) as [names |] eqn:Hl.
    + now rewrite (compose_response_online _ _ _ _ names).
    + now rewrite compose_response_dangling.
Qed.

Lemma compose_response_frame (server : Server) (status : StatusResponse)
    (player_list other : loc) (w : World) :
  other <> player_list ->
  heap (compose_response server status player_list w).2 !! other = heap w !! other.
Proof.
  intros Hne. destruct (Z.eq_dec (online (players status)) 0%Z) as [H0 | H0].
  - now rewrite compose_response_zero.
  - destruct (heap w !! player_list) as [names |] eqn:Hl.
    + rewrite (compose_response_online _ _ _ _ names) by assumption.
      cbn [snd heap]. apply list_lookup_insert_ne. congruence.
    + now rewrite compose_response_dangling.
Qed.

(** C2, amended.  [compose_response] is deterministic and does no I/O: two
    calls with the same server and status, on list objects that hold the
    same names, return the same text; the call adds no event to the trace
    and leaves every other list object as it was; and when the online count
    is 0 or the list is at least as long as the count, it leaves the world
    unchanged.  (Otherwise it appends to the list it is given.) *)
Theorem compose_response_deterministic (server : Server) (status : StatusResponse)
    (l1 l2 : loc) (w1 w2 : World) (names : list string) :
  heap w1 !! l1 = Some names ->
  heap w2 !! l2 = Some names ->
  (compose_response server status l1 w1).1 = (compose_response server status l2 w2).1
  /\ trace (compose_response server status l1 w1).2 = trace w1
  /\ (forall other, other <> l1 ->
        heap (compose_response server status l1 w1).2 !! other = heap w1 !! other)
  /\ (online (players status) = 0%Z
      \/ (online (players status) <= Z.of_nat (length names))%Z ->
      (compose_response server status l1 w1).2 = w1).
Proof.
  intros H1 H2. split; [| split; [| split]].
  - destruct (Z.eq_dec (online (players status)) 0%Z) as [H0 | H0].
    + now rewrite !compose_response_zero.
    + now rewrite (compose_response_online _ _ l1 w1 names),
        (compose_response_online _ _ l2 w2 names).
  - apply compose_response_trace.
  - intros other. apply compose_response_frame.
  - intros [H0 | Hle].
    + now rewrite compose_response_zero.
    + destruct (compose_response_full_list server status l1 w1 names H1 Hle)
        as [r ->]. reflexivity.
Qed.

(** ** Events and counters *)

Lemma push_nil (w : World) : push w [] = w.
Proof. unfold push. rewrite app_nil_r. now destruct w. Qed.

Lemma push_push (w : World) (evs1 evs2 : list event) :
  push (push w evs1) evs2 = push w (evs1 ++ evs2).
Proof. unfold push. cbn. now rewrite app_assoc. Qed.

Lemma attempts_push (w : World) (evs : list event) :
  attempts (push w evs) = attempts w + length (List.filter is_status evs).
Proof. unfold attempts, push. cbn. now rewrite List.filter_app, length_app. Qed.

Lemma lookups_push (w : World) (evs : list event) :
  lookups (push w evs) = lookups w + length (List.filter is_lookup evs).
Proof. unfold lookups, push. cbn. now rewrite List.filter_app, length_app. Qed.

Lemma queries_push (w : World) (evs : list event) :
  queries (push w evs) = queries w + length (List.filter is_query evs).
Proof. unfold queries, push. cbn. now rewrite List.filter_app, length_app. Qed.

Lemma sent_push (w : World) (evs : list event) :
  sent (push w evs) = sent w ++ List.filter is_send evs.
Proof. unfold sent, push. cbn. now rewrite List.filter_app. Qed.

Lemma sent_extend (w : World) (objs : list (list string)) (evs : list event) :
  sent (extend w objs evs) = sent w ++ List.filter is_send evs.
Proof. unfold sent, extend. cbn [trace]. apply List.filter_app. Qed.

(** ** The status fetcher *)

Section FetcherProperties.

Variable net : Network.

Lemma JavaServer_lookup_ok (addr : string) (w : World) :
  lookup_reply net addr (lookups w) = None ->
  JavaServer_lookup net addr w = (Return (mkJavaServer addr), push w [EvLookup addr]).
Proof. intros H. unfold JavaServer_lookup. now rewrite H. Qed.

Lemma JavaServer_lookup_error (addr : string) (w : World) (e : exn) :
  lookup_reply net addr (lookups w) = Some e ->
  JavaServer_lookup net addr w = (Raise e, push w [EvLookup addr]).
Proof. intros H. unfold JavaServer_lookup. now rewrite H. Qed.

Lemma status_attempt_answer (server_lookup : JavaServer) (count : nat) (w : World)
    (st : StatusResponse) :
  status_reply net (address server_lookup) (attempts w) = Answer st ->
  status_attempt net server_lookup count w
  = (Return (inl (Some st)), push w [EvStatus (address server_lookup)]).
Proof.
  intros H. unfold status_attempt, try_except, mbind, M_bind, JavaServer_status.
  now rewrite H.
Qed.

Lemma status_attempt_failure (server_lookup : JavaServer) (count : nat) (w : World)
    (e : exn) :
  status_reply net (address server_lookup) (attempts w) = Failure e ->
  is_Exception e = true ->
  status_attempt net server_lookup count w
  = (Return (inr (count + 1)),
     push w [EvStatus (address server_lookup); failure_warning e count]).
Proof.
  intros H He. unfold status_attempt, try_except, mbind, M_bind, JavaServer_status.
  rewrite H. unfold failure_warning, push.
  destruct (is_socket_timeout e); [| rewrite He]; cbn; now rewrite <- app_assoc.
Qed.

Lemma status_attempt_uncaught (server_lookup : JavaServer) (count : nat) (w : World)
    (e : exn) :
  status_reply net (address server_lookup) (attempts w) = Failure e ->
  is_Exception e = false ->
  status_attempt net server_lookup count w
  = (Raise e, push w [EvStatus (address server_lookup)]).
Proof.
  intros H He. unfold status_attempt, try_except, mbind, M_bind, JavaServer_status.
  rewrite H. destruct e; try discriminate. reflexivity.
Qed.

(** [n] failed attempts take the loop from [count] to [count + n]. *)
Lemma status_loop_failures (n : nat) :
  forall (fuel : nat) (server_lookup : JavaServer) (count : nat) (w : World),
    count + n <= MAX_RETRIES ->
    (forall i, i < n ->
       exists e, status_reply net (address server_lookup) (attempts w + i) = Failure e
                 /\ is_Exception e = true) ->
    status_loop net (n + fuel) server_lookup count w
    = status_loop net fuel server_lookup (count + n)
        (push w (retry_events net (address server_lookup) (attempts w) count n)).
Proof.
  induction n as [| n IH]; intros fuel server_lookup count w Hle Hfail.
  - cbn [retry_events]. now rewrite push_nil, Nat.add_0_r.
  - destruct (Hfail 0) as (e & He & Hexc); [lia |].
    rewrite Nat.add_0_r in He.
    cbn [Nat.add status_loop retry_events].
    replace (count <? MAX_RETRIES)%nat with true
      by (symmetry; apply Nat.ltb_lt; lia).
    rewrite (bind_Return _ _ _ _ _ (status_attempt_failure _ count _ _ He Hexc)).
    rewrite He. rewrite IH.
    + rewrite push_push, attempts_push. cbn [List.filter is_status failure_warning length].
      replace (count + 1 + n) with (count + S n) by lia.
      replace (attempts w + 1) with (S (attempts w)) by lia.
      replace (count + 1) with (S count) by lia.
      reflexivity.
    + lia.
    + intros i Hi. rewrite attempts_push. cbn [List.filter is_status failure_warning length].
      destruct (Hfail (S i)) as (e' & He' & Hexc'); [lia |].
      exists e'. split; [| exact Hexc'].
      rewrite <- He'. f_equal. lia.
Qed.

Lemma retry_events_status (addr : string) (n : nat) :
  forall first count,
    List.filter is_status (retry_events net addr first count n)
    = repeat (EvStatus addr) n.
Proof.
  induction n as [| n IH]; intros first count; [reflexivity |].
  cbn [retry_events repeat]. cbn [List.filter is_status].
  rewrite List.filter_app, IH.
  now destruct (status_reply net addr first).
Qed.

Lemma retry_events_length (addr : string) (n first count : nat) :
  length (List.filter is_status (retry_events net addr first count n)) = n.
Proof. rewrite retry_events_status. apply repeat_length. Qed.

(** More fuel than [MAX_RETRIES + 1] changes nothing: the loop of
    [get_server_info] ends within its fuel. *)
Lemma status_loop_not_stuck (fuel : nat) :
  forall (server_lookup : JavaServer) (count : nat) (w : World),
    MAX_RETRIES - count < fuel ->
    (status_loop net fuel server_lookup count w).1 <> Stuck.
Proof.
  induction fuel as [| fuel IH]; intros server_lookup count w Hfuel; [lia |].
  cbn [status_loop].
  destruct (count <? MAX_RETRIES)%nat eqn:Hc; [| discriminate].
  apply Nat.ltb_lt in Hc.
  destruct (status_reply net (address server_lookup) (attempts w)) as [st | e] eqn:Hr.
  - rewrite (bind_Return _ _ _ _ _ (status_attempt_answer _ count _ _ Hr)). discriminate.
  - destruct (is_Exception e) eqn:He.
    + rewrite (bind_Return _ _ _ _ _ (status_attempt_failure _ count _ _ Hr He)).
      apply IH. lia.
    + rewrite (bind_Raise _ _ _ _ _ (status_attempt_uncaught _ count _ _ Hr He)).
      discriminate.
Qed.

Lemma status_loop_fuel_enough (extra : nat) :
  forall (fuel : nat) (server_lookup : JavaServer) (count : nat) (w : World),
    MAX_RETRIES - count < fuel ->
    status_loop net (fuel + extra) server_lookup count w
    = status_loop net fuel server_lookup count w.
Proof.
  intros fuel. induction fuel as [| fuel IH]; intros server_lookup count w Hfuel; [lia |].
  cbn [Nat.add status_loop].
  destruct (count <? MAX_RETRIES)%nat eqn:Hc; [| reflexivity].
  apply Nat.ltb_lt in Hc. unfold mbind, M_bind.
  destruct (status_attempt net server_lookup count w) as [[[v | count'] | e |] w'] eqn:Ha;
    try reflexivity.
  assert (count' = count + 1) as ->.
  { destruct (status_reply net (address server_lookup) (attempts w)) as [st | e] eqn:Hr.
    - rewrite (status_attempt_answer _ count _ _ Hr) in Ha. discriminate.
    - destruct (is_Exception e) eqn:He.
      + rewrite (status_attempt_failure _ count _ _ Hr He) in Ha. congruence.
      + rewrite (status_attempt_uncaught _ count _ _ Hr He) in Ha. discriminate. }
  apply IH. lia.
Qed.

(** [get_server_info] is [get_server_info_fuel] at any larger fuel. *)
Lemma get_server_info_fuel_enough (extra : nat) (server : Server) (w : World) :
  get_server_info_fuel net (S MAX_RETRIES + extra) server w
  = get_server_info net server w
  /\ (get_server_info net server w).1 <> Stuck.
Proof.
  unfold get_server_info, get_server_info_fuel, mbind, M_bind, JavaServer_lookup.
  destruct (lookup_reply net (ip server) (lookups w)); [split; [reflexivity | discriminate] |].
  split.
  - apply status_loop_fuel_enough. unfold MAX_RETRIES. lia.
  - apply status_loop_not_stuck. unfold MAX_RETRIES. lia.
Qed.

End FetcherProperties.

Lemma fetch_events_filter (p : event -> bool) (evs : list event) :
  (forall ev, is_fetch_event ev = true -> p ev = false) ->
  Forall (fun ev => is_fetch_event ev = true) evs ->
  List.filter p evs = [].
Proof.
  intros Hp. induction 1 as [| ev evs Hev _ IH]; [reflexivity |].
  cbn. now rewrite (Hp ev Hev).
Qed.

Lemma status_loop_events (net : Network) (fuel : nat) :
  forall (server_lookup : JavaServer) (count : nat) (w : World),
  exists evs,
    (status_loop net fuel server_lookup count w).2 = push w evs
    /\ Forall (fun ev => is_fetch_event ev = true) evs.
Proof.
  induction fuel as [| fuel IH]; intros server_lookup count w.
  - exists []. now rewrite push_nil.
  - cbn [status_loop]. destruct (count <? MAX_RETRIES)%nat.
    2: { exists []. now rewrite push_nil. }
    destruct (status_reply net (address server_lookup) (attempts w)) as [st | e] eqn:Hr.
    + rewrite (bind_Return _ _ _ _ _ (status_attempt_answer net _ count _ _ Hr)).
      eexists. split; [reflexivity |]. now repeat constructor.
    + destruct (is_Exception e) eqn:He.
      * rewrite (bind_Return _ _ _ _ _ (status_attempt_failure net _ count _ _ Hr He)).
        destruct (IH server_lookup (count + 1)
                    (push w [EvStatus (address server_lookup); failure_warning e count]))
          as (evs & -> & Hevs).
        rewrite push_push. eexists. split; [reflexivity |].
        now repeat constructor.
      * rewrite (bind_Raise _ _ _ _ _ (status_attempt_uncaught net _ count _ _ Hr He)).
        eexists. split; [reflexivity |]. now repeat constructor.
Qed.

(** Whatever the network replies, [get_server_info] makes one lookup, first,
    and then only [status()] calls and log lines. *)
Lemma get_server_info_events (net : Network) (server : Server) (w : World) :
  exists evs,
    (get_server_info net server w).2 = push w (EvLookup (ip server) :: evs)
    /\ Forall (fun ev => is_fetch_event ev = true) evs.
Proof.
  unfold get_server_info, get_server_info_fuel.
  destruct (lookup_reply net (ip server) (lookups w)) as [e |] eqn:Hl.
  - rewrite (bind_Raise _ _ _ _ _ (JavaServer_lookup_error net _ _ _ Hl)).
    exists []. split; [reflexivity | constructor].
  - rewrite (bind_Return _ _ _ _ _ (JavaServer_lookup_ok net _ _ Hl)).
    destruct (status_loop_events net (S MAX_RETRIES) (mkJavaServer (ip server)) 0
                (push w [EvLookup (ip server)])) as (evs & -> & Hevs).
    rewrite push_push. now exists evs.
Qed.

(** C1.  Provided the address lookup succeeds: if each of the (at most) 5
    status attempts fails with a timeout or another [Exception],
    [get_server_info] makes exactly 5 [status()] calls, each followed by its
    warning, and returns [None]; if the first [k < 5] attempts fail so and
    the next one answers, it makes exactly [k + 1] calls and returns that
    answer, with no event after the answered call. *)
Theorem get_server_info_retry_bound (net : Network) (server : Server) (w : World) :
  lookup_reply net (ip server) (lookups w) = None ->
  ((forall i, i < 5 ->
      exists e, status_reply net (ip server) (attempts w + i) = Failure e
                /\ is_Exception e = true) ->
   get_server_info net server w
   = (Return None,
      push w (EvLookup (ip server) :: retry_events net (ip server) (attempts w) 0 5))
   /\ attempts (get_server_info net server w).2 = attempts w + 5)
  /\ (forall k st,
        k < 5 ->
        (forall i, i < k ->
           exists e, status_reply net (ip server) (attempts w + i) = Failure e
                     /\ is_Exception e = true) ->
        status_reply net (ip server) (attempts w + k) = Answer st ->
        get_server_info net server w
        = (Return (Some st),
           push w (EvLookup (ip server)
                     :: retry_events net (ip server) (attempts w) 0 k
                     ++ [EvStatus (ip server)]))
        /\ attempts (get_server_info net server w).2 = attempts w + (k + 1)).
Proof.
  intros Hl.
  assert (Hat : attempts (push w [EvLookup (ip server)]) = attempts w)
    by (rewrite attempts_push; cbn; lia).
  unfold get_server_info, get_server_info_fuel.
  rewrite (bind_Return _ _ _ _ _ (JavaServer_lookup_ok net _ _ Hl)).
  split.
  - intros Hfail.
    change (S MAX_RETRIES) with (5 + 1).
    rewrite status_loop_failures; cbn [address]; rewrite ?Hat;
      [| unfold MAX_RETRIES; lia | exact Hfail].
    cbn [status_loop Nat.add Nat.ltb Nat.leb MAX_RETRIES]. unfold mret, M_ret.
    rewrite push_push. split; [reflexivity |].
    cbn [snd]. rewrite attempts_push. cbn [app List.filter is_status length].
    rewrite retry_events_length. lia.
  - intros k st Hk Hfail Hans.
    replace (S MAX_RETRIES) with (k + (S MAX_RETRIES - k)) by (unfold MAX_RETRIES; lia).
    rewrite status_loop_failures; cbn [address]; rewrite ?Hat;
      [| unfold MAX_RETRIES; lia | exact Hfail].
    replace (S MAX_RETRIES - k) with (S (MAX_RETRIES - k)) by (unfold MAX_RETRIES; lia).
    cbn [status_loop].
    replace (0 + k <? MAX_RETRIES)%nat with true
      by (symmetry; apply Nat.ltb_lt; unfold MAX_RETRIES; lia).
    erewrite bind_Return.
    2: { apply status_attempt_answer. cbn [address].
         rewrite push_push, attempts_push. cbn [app List.filter is_status length].
         rewrite retry_events_length.
         exact Hans. }
    unfold mret, M_ret. rewrite !push_push. cbn [address app].
    split; [reflexivity |].
    cbn [snd]. rewrite attempts_push. cbn [List.filter is_status length].
    rewrite List.filter_app, length_app, retry_events_length. cbn. lia.
Qed.

(** C10.  [get_server_info] looks the address up once, before the first
    status attempt and outside the [try]: an error raised by the lookup,
    whatever its class, comes out of [get_server_info] as it is, with no
    status attempt made and no warning logged; and in every run the lookup
    is the first event and the only lookup. *)
Theorem get_server_info_lookup_error (net : Network) (server : Server) (w : World) :
  (forall e,
     lookup_reply net (ip server) (lookups w) = Some e ->
     get_server_info net server w = (Raise e, push w [EvLookup (ip server)]))
  /\ (exists evs,
        (get_server_info net server w).2 = push w (EvLookup (ip server) :: evs)
        /\ List.filter is_lookup evs = [])
  /\ lookups (get_server_info net server w).2 = S (lookups w).
Proof.
  split; [| split].
  - intros e He. unfold get_server_info, get_server_info_fuel.
    now rewrite (bind_Raise _ _ _ _ _ (JavaServer_lookup_error net _ _ _ He)).
  - destruct (get_server_info_events net server w) as (evs & Hw & Hevs).
    exists evs. split; [exact Hw |].
    apply fetch_events_filter; [| exact Hevs]. now intros [].
  - destruct (get_server_info_events net server w) as (evs & -> & Hevs).
    rewrite lookups_push. cbn [List.filter is_lookup length].
    rewrite (fetch_events_filter is_lookup evs); [cbn; lia | | exact Hevs].
    now intros [].
Qed.

(** ** The command handler *)

Lemma heap_lookup_fresh (h : list (list string)) (l : list string)
    (rest : list (list string)) :
  (h ++ l :: rest) !! length h = Some l.
Proof. now apply list_lookup_middle. Qed.

Lemma heap_lookup_fresh_snoc (h : list (list string)) (l : list string) :
  (h ++ [l]) !! length h = Some l.
Proof. apply heap_lookup_fresh. Qed.

Lemma heap_lookup_second (h : list (list string)) (l0 l : list string)
    (rest : list (list string)) :
  (h ++ l0 :: l :: rest) !! S (length h) = Some l.
Proof.
  replace (h ++ l0 :: l :: rest) with ((h ++ [l0]) ++ l :: rest)
    by now rewrite <- app_assoc.
  apply list_lookup_middle. rewrite length_app. cbn. lia.
Qed.

Section HandlerProperties.

Variable net : Network.

Lemma heap_lookup_last (h objs : list (list string)) (l : list string) :
  (h ++ objs ++ [l]) !! (length h + length objs) = Some l.
Proof.
  rewrite app_assoc. apply list_lookup_middle. now rewrite length_app.
Qed.

(** The fallback: the empty list [player_list] refers to is replaced by the
    names of the sample, when the status has one. *)
Lemma collect_fallback (st : StatusResponse) (w : World) (objs : list (list string))
    (evs : list event) (player_list : loc) :
  (heap w ++ objs) !! player_list = Some [] ->
  (n ← list_len player_list;
   if (n =? 0)%Z then names_from_sample st else mret player_list)
    (extend w objs evs)
  = fallback_outcome st w objs evs.
Proof.
  intros Hl. erewrite bind_Return by (apply list_len_Some; exact Hl).
  cbn [length]. change (Z.of_nat 0 =? 0)%Z with true. cbv beta iota.
  unfold names_from_sample, fallback_outcome.
  destruct (sample (players st)) as [l |]; [| reflexivity].
  unfold new_list, extend. cbn [heap trace].
  now rewrite length_app, <- app_assoc.
Qed.

Lemma fallback_outcome_Some (st : StatusResponse) (w : World)
    (objs : list (list string)) (evs : list event) (l : list Player) :
  sample (players st) = Some l ->
  fallback_outcome st w objs evs
  = (Return (length (heap w) + length objs),
     extend w (objs ++ [sample_names l]) evs)
  /\ heap (extend w (objs ++ [sample_names l]) evs)
       !! (length (heap w) + length objs)
     = Some (sample_names l).
Proof.
  intros H. unfold fallback_outcome. rewrite H. split; [reflexivity |].
  apply heap_lookup_last.
Qed.

Lemma fallback_outcome_None (st : StatusResponse) (w : World)
    (objs : list (list string)) (evs : list event) :
  sample (players st) = None ->
  fallback_outcome st w objs evs = (Raise none_not_iterable, extend w objs evs).
Proof. intros H. unfold fallback_outcome. now rewrite H. Qed.

Lemma collect_player_list_no_query (s : Server) (st : StatusResponse) (w : World) :
  supports_querying s = false ->
  collect_player_list net s st w = fallback_outcome st w [[]] [].
Proof.
  intros Hs. unfold collect_player_list. rewrite Hs.
  erewrite bind_Return by reflexivity.
  erewrite bind_Return by reflexivity.
  replace (mkWorld (heap w ++ [[]]) (trace w)) with (extend w [[]] [])
    by (unfold extend; now rewrite app_nil_r).
  apply collect_fallback. apply heap_lookup_fresh_snoc.
Qed.

Lemma collect_player_list_lookup_error (s : Server) (st : StatusResponse) (w : World)
    (e : exn) :
  supports_querying s = true ->
  lookup_reply net (ip s) (lookups w) = Some e ->
  collect_player_list net s st w
  = if is_socket_timeout e then
      fallback_outcome st w [[]] [EvLookup (ip s); backup_log s]
    else (Raise e, extend w [[]] [EvLookup (ip s)]).
Proof.
  intros Hs Hl. unfold collect_player_list. rewrite Hs.
  erewrite bind_Return by reflexivity.
  assert (Hq : get_players_query net s (mkWorld (heap w ++ [[]]) (trace w))
               = (Raise e, extend w [[]] [EvLookup (ip s)])).
  { unfold get_players_query. apply bind_Raise.
    unfold JavaServer_lookup, lookups. cbn [trace heap]. fold (lookups w).
    now rewrite Hl. }
  destruct (is_socket_timeout e) eqn:He.
  - erewrite bind_Return.
    2: { unfold try_except. erewrite bind_Raise by exact Hq. rewrite He.
         reflexivity. }
    cbn [heap trace extend]. rewrite <- app_assoc.
    apply (collect_fallback st w [[]] [EvLookup (ip s); backup_log s]).
    apply heap_lookup_fresh_snoc.
  - apply bind_Raise. unfold try_except. erewrite bind_Raise by exact Hq.
    now rewrite He.
Qed.

Lemma get_players_query_failure (s : Server) (w : World) (e : exn) :
  lookup_reply net (ip s) (lookups w) = None ->
  query_reply net (ip s) (queries w) = Failure e ->
  get_players_query net s w = (Raise e, push w [EvLookup (ip s); EvQuery (ip s)]).
Proof.
  intros Hl Hq. unfold get_players_query.
  rewrite (bind_Return _ _ _ _ _ (JavaServer_lookup_ok net _ _ Hl)).
  unfold JavaServer_query_names. cbn [address].
  rewrite queries_push. cbn [List.filter is_query length]. rewrite Nat.add_0_r, Hq.
  unfold push. cbn [heap trace]. now rewrite <- app_assoc.
Qed.

Lemma get_players_query_answer (s : Server) (w : World) (names : list string) :
  lookup_reply net (ip s) (lookups w) = None ->
  query_reply net (ip s) (queries w) = Answer names ->
  get_players_query net s w
  = (Return (length (heap w)), extend w [names] [EvLookup (ip s); EvQuery (ip s)]).
Proof.
  intros Hl Hq. unfold get_players_query.
  rewrite (bind_Return _ _ _ _ _ (JavaServer_lookup_ok net _ _ Hl)).
  unfold JavaServer_query_names. cbn [address].
  rewrite queries_push. cbn [List.filter is_query length]. rewrite Nat.add_0_r, Hq.
  unfold new_list, push, extend. cbn [heap trace]. now rewrite <- app_assoc.
Qed.

Lemma collect_player_list_query_error (s : Server) (st : StatusResponse) (w : World)
    (e : exn) :
  supports_querying s = true ->
  lookup_reply net (ip s) (lookups w) = None ->
  query_reply net (ip s) (queries w) = Failure e ->
  collect_player_list net s st w
  = if is_socket_timeout e then
      fallback_outcome st w [[]] [EvLookup (ip s); EvQuery (ip s); backup_log s]
    else (Raise e, extend w [[]] [EvLookup (ip s); EvQuery (ip s)]).
Proof.
  intros Hs Hl Hq. unfold collect_player_list. rewrite Hs.
  erewrite bind_Return by reflexivity.
  assert (Hg : get_players_query net s (mkWorld (heap w ++ [[]]) (trace w))
               = (Raise e, extend w [[]] [EvLookup (ip s); EvQuery (ip s)])).
  { now apply get_players_query_failure. }
  destruct (is_socket_timeout e) eqn:He.
  - erewrite bind_Return.
    2: { unfold try_except. erewrite bind_Raise by exact Hg. rewrite He.
         reflexivity. }
    cbn [heap trace extend]. rewrite <- app_assoc.
    apply (collect_fallback st w [[]] [EvLookup (ip s); EvQuery (ip s); backup_log s]).
    apply heap_lookup_fresh_snoc.
  - apply bind_Raise. unfold try_except. erewrite bind_Raise by exact Hg.
    now rewrite He.
Qed.

Lemma print_Some (player_list : loc) (w : World) (l : list string) :
  heap w !! player_list = Some l ->
  print player_list w = (Return tt, push w [EvPrint l]).
Proof.
  intros H. unfold print.
  now rewrite (bind_Return _ _ _ _ _ (list_read_Some _ _ _ H)).
Qed.

Lemma collect_player_list_query_empty (s : Server) (st : StatusResponse) (w : World) :
  supports_querying s = true ->
  lookup_reply net (ip s) (lookups w) = None ->
  query_reply net (ip s) (queries w) = Answer [] ->
  collect_player_list net s st w
  = fallback_outcome st w [[]; []] [EvLookup (ip s); EvQuery (ip s); EvPrint []].
Proof.
  intros Hs Hl Hq. unfold collect_player_list. rewrite Hs.
  erewrite bind_Return by reflexivity.
  erewrite bind_Return.
  2: { unfold try_except.
       erewrite bind_Return
         by (apply get_players_query_answer; [exact Hl | exact Hq]).
       erewrite bind_Return
         by (apply print_Some; cbn [heap extend]; apply heap_lookup_fresh_snoc).
       reflexivity. }
  unfold push, extend. cbn [heap trace]. rewrite length_app, <- !app_assoc.
  cbn [length app]. rewrite Nat.add_1_r.
  apply (collect_fallback st w [[]; []]
           [EvLookup (ip s); EvQuery (ip s); EvPrint []]).
  apply heap_lookup_second.
Qed.

Lemma collect_player_list_query_names (s : Server) (st : StatusResponse) (w : World)
    (names : list string) :
  supports_querying s = true ->
  lookup_reply net (ip s) (lookups w) = None ->
  query_reply net (ip s) (queries w) = Answer names ->
  names <> [] ->
  collect_player_list net s st w
  = (Return (S (length (heap w))),
     extend w [[]; names] [EvLookup (ip s); EvQuery (ip s); EvPrint names]).
Proof.
  intros Hs Hl Hq Hne. unfold collect_player_list. rewrite Hs.
  erewrite bind_Return by reflexivity.
  erewrite bind_Return.
  2: { unfold try_except.
       erewrite bind_Return
         by (apply get_players_query_answer; [exact Hl | exact Hq]).
       erewrite bind_Return
         by (apply print_Some; cbn [heap extend]; apply heap_lookup_fresh_snoc).
       reflexivity. }
  unfold push, extend. cbn [heap trace]. rewrite length_app, <- !app_assoc.
  cbn [length app]. rewrite Nat.add_1_r.
  erewrite bind_Return by (apply list_len_Some; cbn [heap]; apply heap_lookup_second).
  replace (Z.of_nat (length names) =? 0)%Z with false; [reflexivity |].
  symmetry. apply Z.eqb_neq. destruct names; [congruence | cbn; lia].
Qed.

(** Lines 227-229: print the list, compose, send. *)
Lemma reply_with (s : Server) (st : StatusResponse) (player_list : loc) (w : World)
    (names : list string) :
  online (players st) <> 0%Z ->
  heap w !! player_list = Some names ->
  (print player_list;;
   content ← compose_response s st player_list;
   followup_send content) w
  = (Return tt,
     mkWorld (<[player_list := listed st names]> (heap w))
       (trace w ++ [EvPrint names; EvSend (online_response s st (listed st names))])).
Proof.
  intros Hon Hl.
  rewrite (bind_Return _ _ _ _ _ (print_Some _ _ _ Hl)).
  erewrite bind_Return by (apply compose_response_online; [exact Hon | exact Hl]).
  unfold followup_send, emit, push. cbn [heap trace]. now rewrite <- app_assoc.
Qed.

(** Line 214: the reply for a count of 0. *)
Lemma reply_no_players (s : Server) (st : StatusResponse) (w : World) :
  online (players st) = 0%Z ->
  (empty ← new_list [];
   content ← compose_response s st empty;
   followup_send content) w
  = (Return tt, extend w [[]] [EvSend (header s +:+ "**No online players**")]).
Proof.
  intros Hon. erewrite bind_Return by reflexivity.
  erewrite bind_Return by (now apply compose_response_zero).
  reflexivity.
Qed.

End HandlerProperties.

Lemma selected_functional (registry : list Server) (interaction : Interaction)
    (server : string) (s s' : Server) :
  selected registry interaction server s ->
  selected registry interaction server s' ->
  s = s'.
Proof. intros [[? ?] | [? ?]] [[? ?] | [? ?]]; congruence. Qed.

Section SendData.

Variable net : Network.
Variable registry : list Server.
Variable interaction : Interaction.
Variable server : string.
Variable hidden : bool.

Lemma select_server_selected (s : Server) (w : World) :
  selected registry interaction server s ->
  select_server registry interaction server w = (Return (Some s), w).
Proof.
  unfold select_server. intros [[-> Hs] | [Hne Hs]].
  - cbn [String.eqb Ascii.eqb Bool.eqb andb]. unfold try_except, mbind, M_bind, lift.
    now rewrite Hs.
  - apply String.eqb_neq in Hne. rewrite Hne. unfold mbind, M_bind, lift.
    now rewrite Hs.
Qed.

Lemma select_server_missing (w : World) :
  server = "Default" ->
  get_server_from_channel registry (channel_id interaction)
  = Raise (channel_not_found (channel_id interaction)) ->
  select_server registry interaction server w
  = (Return None, push w [EvSend guidance]).
Proof.
  intros -> Hs. unfold select_server.
  cbn [String.eqb Ascii.eqb Bool.eqb andb]. unfold try_except, mbind, M_bind, lift.
  now rewrite Hs.
Qed.

Lemma send_data_missing (w : World) :
  server = "Default" ->
  get_server_from_channel registry (channel_id interaction)
  = Raise (channel_not_found (channel_id interaction)) ->
  send_data net registry interaction server hidden w
  = (Return tt, push w [EvDefer hidden; EvSend guidance]).
Proof.
  intros Hd Hs. unfold send_data.
  erewrite bind_Return by reflexivity.
  erewrite bind_Return by (apply select_server_missing; assumption).
  unfold mret, M_ret, push. cbn [heap trace]. now rewrite <- app_assoc.
Qed.

Lemma send_data_fetch_raises (w w1 : World) (s : Server) (e : exn) :
  selected registry interaction server s ->
  get_server_info net s (push w [EvDefer hidden]) = (Raise e, w1) ->
  send_data net registry interaction server hidden w = (Raise e, w1).
Proof.
  intros Hs Hinfo. unfold send_data.
  erewrite bind_Return by reflexivity.
  erewrite bind_Return by (apply (select_server_selected s); exact Hs).
  now apply bind_Raise.
Qed.

Lemma send_data_unavailable (w w1 : World) (s : Server) :
  selected registry interaction server s ->
  get_server_info net s (push w [EvDefer hidden]) = (Return None, w1) ->
  send_data net registry interaction server hidden w
  = (Return tt, push w1 [EvSend "**An unexpected error occurred**"]).
Proof.
  intros Hs Hinfo. unfold send_data.
  erewrite bind_Return by reflexivity.
  erewrite bind_Return by (apply (select_server_selected s); exact Hs).
  cbv beta iota. erewrite bind_Return by exact Hinfo. cbv beta iota. reflexivity.
Qed.

Lemma send_data_no_players (w w1 : World) (s : Server) (st : StatusResponse) :
  selected registry interaction server s ->
  get_server_info net s (push w [EvDefer hidden]) = (Return (Some st), w1) ->
  online (players st) = 0%Z ->
  send_data net registry interaction server hidden w
  = (Return tt, extend w1 [[]] [EvSend (header s +:+ "**No online players**")]).
Proof.
  intros Hs Hinfo Hon. unfold send_data.
  erewrite bind_Return by reflexivity.
  erewrite bind_Return by (apply (select_server_selected s); exact Hs).
  cbv beta iota. erewrite bind_Return by exact Hinfo. cbv beta iota.
  rewrite Hon. cbn [Z.eqb]. now apply reply_no_players.
Qed.

Lemma send_data_online (w w1 : World) (s : Server) (st : StatusResponse) :
  selected registry interaction server s ->
  get_server_info net s (push w [EvDefer hidden]) = (Return (Some st), w1) ->
  online (players st) <> 0%Z ->
  send_data net registry interaction server hidden w
  = (player_list ← collect_player_list net s st;
     print player_list;;
     content ← compose_response s st player_list;
     followup_send content) w1.
Proof.
  intros Hs Hinfo Hon. unfold send_data.
  erewrite bind_Return by reflexivity.
  erewrite bind_Return by (apply (select_server_selected s); exact Hs).
  cbv beta iota. erewrite bind_Return by exact Hinfo. cbv beta iota.
  apply Z.eqb_neq in Hon. now rewrite Hon.
Qed.

End SendData.

Lemma composes_from_intro (run : result unit * World) (s : Server)
    (st : StatusResponse) (names : list string) (l : loc) (w2 : World) :
  online (players st) <> 0%Z ->
  heap w2 !! l = Some names ->
  run = (print l;;
         content ← compose_response s st l;
         followup_send content) w2 ->
  composes_from run s st names.
Proof.
  intros Hon Hl Hrun. split; [now exists l, w2 |].
  rewrite Hrun, (reply_with s st l w2 names Hon Hl). cbn [fst snd trace].
  split; [reflexivity | now exists (trace w2)].
Qed.

Lemma sample_names_filter (l : list Player) :
  sample_names l
  = List.filter (fun n => negb (String.eqb n "Anonymous Player"))
      (map player_name l).
Proof.
  unfold sample_names. induction l as [| i l IH]; [reflexivity |].
  cbn [List.filter map].
  destruct (negb (String.eqb (player_name i) "Anonymous Player")); cbn [map];
    now rewrite IH.
Qed.

(** The names the fallback composes from, for a status that has a sample. *)
Lemma composes_from_fallback (run : result unit * World) (s : Server)
    (st : StatusResponse) (w1 : World) (objs : list (list string))
    (evs : list event) (l : list Player) (collect : M loc) :
  online (players st) <> 0%Z ->
  sample (players st) = Some l ->
  collect w1 = fallback_outcome st w1 objs evs ->
  run = (player_list ← collect;
         print player_list;;
         content ← compose_response s st player_list;
         followup_send content) w1 ->
  composes_from run s st (sample_names l).
Proof.
  intros Hon Hl Hc Hrun.
  destruct (fallback_outcome_Some st w1 objs evs l Hl) as [Hout Hheap].
  rewrite Hout in Hc. rewrite (bind_Return _ _ _ _ _ Hc) in Hrun.
  eapply composes_from_intro; [exact Hon | exact Hheap | exact Hrun].
Qed.

(** The fallback for a status that has no sample: the [TypeError] comes out
    and nothing is printed or sent. *)
Lemma raises_from_fallback (run : result unit * World) (s : Server)
    (st : StatusResponse) (w1 : World) (objs : list (list string))
    (evs : list event) (collect : M loc) :
  sample (players st) = None ->
  collect w1 = fallback_outcome st w1 objs evs ->
  run = (player_list ← collect;
         print player_list;;
         content ← compose_response s st player_list;
         followup_send content) w1 ->
  run = (Raise none_not_iterable, extend w1 objs evs).
Proof.
  intros Hl Hc Hrun.
  rewrite (fallback_outcome_None st w1 objs evs Hl) in Hc.
  now rewrite (bind_Raise _ _ _ _ _ Hc) in Hrun.
Qed.

(** X21.  When the selected server supports querying, its status was fetched
    with a non-zero count and the lookup of the query succeeds: if the query
    answers with a non-empty list, the reply is composed from that list as
    it is.  If the query times out, or answers with an empty list, then for
    a status that has a sample the reply is composed from the names of the
    sample without the entries equal to "Anonymous Player", and for a status
    that has no sample line 226 raises [TypeError] and no reply is sent. *)
Theorem send_data_player_names (net : Network) (registry : list Server)
    (interaction : Interaction) (server : string) (hidden : bool) (w w1 : World)
    (s : Server) (st : StatusResponse) :
  selected registry interaction server s ->
  get_server_info net s (push w [EvDefer hidden]) = (Return (Some st), w1) ->
  online (players st) <> 0%Z ->
  supports_querying s = true ->
  lookup_reply net (ip s) (lookups w1) = None ->
  let run := send_data net registry interaction server hidden w in
  (forall l,
     sample (players st) = Some l ->
     (forall e,
        query_reply net (ip s) (queries w1) = Failure e ->
        is_socket_timeout e = true ->
        composes_from run s st (sample_names l))
     /\ (query_reply net (ip s) (queries w1) = Answer [] ->
         composes_from run s st (sample_names l))
     /\ sample_names l
        = List.filter (fun n => negb (String.eqb n "Anonymous Player"))
            (map player_name l))
  /\ (sample (players st) = None ->
      (forall e,
         query_reply net (ip s) (queries w1) = Failure e ->
         is_socket_timeout e = true ->
         run.1 = Raise none_not_iterable /\ sent run.2 = sent w1)
      /\ (query_reply net (ip s) (queries w1) = Answer [] ->
          run.1 = Raise none_not_iterable /\ sent run.2 = sent w1))
  /\ (forall names,
        query_reply net (ip s) (queries w1) = Answer names ->
        names <> [] ->
        composes_from run s st names).
Proof.
  intros Hsel Hinfo Hon Hq Hl run.
  assert (Hrun : run = (player_list ← collect_player_list net s st;
                        print player_list;;
                        content ← compose_response s st player_list;
                        followup_send content) w1)
    by (now apply send_data_online).
  assert (Hto : forall e,
            query_reply net (ip s) (queries w1) = Failure e ->
            is_socket_timeout e = true ->
            collect_player_list net s st w1
            = fallback_outcome st w1 [[]]
                [EvLookup (ip s); EvQuery (ip s); backup_log s]).
  { intros e He Ht.
    rewrite (collect_player_list_query_error net s st w1 e Hq Hl He), Ht.
    reflexivity. }
  pose proof (collect_player_list_query_empty net s st w1 Hq Hl) as Hempty.
  split; [| split].
  - intros l Hsample. split; [| split].
    + intros e He Ht.
      exact (composes_from_fallback run s st w1 _ _ l _ Hon Hsample (Hto e He Ht) Hrun).
    + intros He.
      exact (composes_from_fallback run s st w1 _ _ l _ Hon Hsample (Hempty He) Hrun).
    + apply sample_names_filter.
  - intros Hsample. split.
    + intros e He Ht.
      rewrite (raises_from_fallback run s st w1 _ _ _ Hsample (Hto e He Ht) Hrun).
      split; [reflexivity |]. cbn [snd]. rewrite sent_extend. cbn.
      now rewrite app_nil_r.
    + intros He.
      rewrite (raises_from_fallback run s st w1 _ _ _ Hsample (Hempty He) Hrun).
      split; [reflexivity |]. cbn [snd]. rewrite sent_extend. cbn.
      now rewrite app_nil_r.
  - intros names He Hne.
    pose proof (collect_player_list_query_names net s st w1 names Hq Hl He Hne) as Hc.
    rewrite (bind_Return _ _ _ _ _ Hc) in Hrun.
    eapply composes_from_intro; [exact Hon | | exact Hrun].
    apply heap_lookup_second.
Qed.

(** C8.  The fallback of line 226 on a status that has no sample: for a
    server that supports querying, two players online and a reply without
    sample, a query that times out and a query that answers with an empty
    list both end with the [TypeError] of iterating [None] coming out of
    [send_data], and no reply is sent; the names of no sample are never
    composed. *)
Theorem send_data_fallback_without_sample :
  send_data net_no_sample_timeout registry_querying from_survival_channel "Default"
    true world_empty
  = (Raise (TypeError "'NoneType' object is not iterable"),
     mkWorld [[]]
       [EvDefer true; EvLookup (ip survival_querying); EvStatus (ip survival_querying);
        EvLookup (ip survival_querying); EvQuery (ip survival_querying);
        backup_log survival_querying])
  /\ send_data net_no_sample_empty registry_querying from_survival_channel "Default"
       true world_empty
     = (Raise (TypeError "'NoneType' object is not iterable"),
        mkWorld [[]; []]
          [EvDefer true; EvLookup (ip survival_querying);
           EvStatus (ip survival_querying);
           EvLookup (ip survival_querying); EvQuery (ip survival_querying);
           EvPrint []])
  /\ sent (send_data net_no_sample_timeout registry_querying from_survival_channel
             "Default" true world_empty).2 = []
  /\ sent (send_data net_no_sample_empty registry_querying from_survival_channel
             "Default" true world_empty).2 = [].
Proof. repeat split; vm_compute; reflexivity. Qed.

(** The same fallback with the registry of the program, none of whose
    entries supports querying: a status with two players online and no
    sample ends the invocation with the [TypeError], and no reply. *)
Example fallback_without_sample_shipped :
  send_data net_no_sample_timeout servers from_survival_channel "Default" true
    world_empty
  = (Raise (TypeError "'NoneType' object is not iterable"),
     mkWorld [[]] [EvDefer true; EvLookup (ip survival); EvStatus (ip survival)]).
Proof. vm_compute. reflexivity. Qed.

(** *** Failures at the handler boundary *)

(** A query error other than a timeout, and a lookup error, come out of
    [send_data] as exceptions, and no reply has been sent. *)
Lemma send_data_failure_propagates :
  let run_query :=
    send_data net_query_refused registry_querying from_survival_channel
      "Default" true world_empty in
  let run_lookup :=
    send_data net_lookup_fails servers from_survival_channel
      "Default" true world_empty in
  run_query.1 = Raise (OtherException "[Errno 111] Connection refused")
  /\ sent run_query.2 = []
  /\ run_lookup.1 = Raise (OtherException "lookup failed")
  /\ sent run_lookup.2 = [].
Proof. cbv zeta. repeat split; vm_compute; reflexivity. Qed.

Lemma status_loop_returns (net : Network) (fuel : nat) :
  forall (server_lookup : JavaServer) (count : nat) (w : World),
    MAX_RETRIES - count < fuel ->
    (forall n e, status_reply net (address server_lookup) n = Failure e ->
                 is_Exception e = true) ->
    exists r, (status_loop net fuel server_lookup count w).1 = Return r.
Proof.
  induction fuel as [| fuel IH]; intros server_lookup count w Hfuel Hexc; [lia |].
  cbn [status_loop].
  destruct (count <? MAX_RETRIES)%nat eqn:Hc; [| now exists None].
  apply Nat.ltb_lt in Hc.
  destruct (status_reply net (address server_lookup) (attempts w)) as [st | e] eqn:Hr.
  - rewrite (bind_Return _ _ _ _ _ (status_attempt_answer net _ count _ _ Hr)).
    now exists (Some st).
  - rewrite (bind_Return _ _ _ _ _
               (status_attempt_failure net _ count _ _ Hr (Hexc _ _ Hr))).
    apply IH; [lia | exact Hexc].
Qed.

(** With a lookup that succeeds and status attempts that fail only with
    [Exception]s, [get_server_info] returns: a status or [None]. *)
Lemma get_server_info_returns (net : Network) (server : Server) (w : World) :
  lookup_reply net (ip server) (lookups w) = None ->
  (forall n e, status_reply net (ip server) n = Failure e -> is_Exception e = true) ->
  exists r evs,
    get_server_info net server w = (Return r, push w (EvLookup (ip server) :: evs))
    /\ Forall (fun ev => is_fetch_event ev = true) evs.
Proof.
  intros Hl Hexc.
  destruct (get_server_info_events net server w) as (evs & Hw & Hevs).
  assert (exists r, (get_server_info net server w).1 = Return r) as [r Hr].
  { unfold get_server_info, get_server_info_fuel.
    rewrite (bind_Return _ _ _ _ _ (JavaServer_lookup_ok net _ _ Hl)).
    apply status_loop_returns; [unfold MAX_RETRIES; lia | exact Hexc]. }
  exists r, evs. split; [| exact Hevs].
  destruct (get_server_info net server w) as [r' w']. cbn in Hw, Hr. congruence.
Qed.

(** With a lookup that succeeds, a query that fails only by timing out and
    a status that has a sample, lines 217-226 end with [player_list] bound to
    a list object, and send nothing. *)
Lemma collect_player_list_total (net : Network) (s : Server) (st : StatusResponse)
    (w : World) :
  lookup_reply net (ip s) (lookups w) = None ->
  (forall e, query_reply net (ip s) (queries w) = Failure e ->
             is_socket_timeout e = true) ->
  sample (players st) <> None ->
  exists l names objs evs,
    collect_player_list net s st w = (Return l, extend w objs evs)
    /\ heap (extend w objs evs) !! l = Some names
    /\ List.filter is_send evs = [].
Proof.
  intros Hl Hto Hsample.
  destruct (sample (players st)) as [sampled |] eqn:Hsampled; [| contradiction].
  assert (Hfall : forall objs evs,
            List.filter is_send evs = [] ->
            exists l names objs' evs',
              fallback_outcome st w objs evs = (Return l, extend w objs' evs')
              /\ heap (extend w objs' evs') !! l = Some names
              /\ List.filter is_send evs' = []).
  { intros objs evs Hevs.
    destruct (fallback_outcome_Some st w objs evs sampled Hsampled) as [Hout Hheap].
    eexists _, _, _, _. split; [exact Hout |]. split; [exact Hheap | exact Hevs]. }
  destruct (supports_querying s) eqn:Hs.
  - destruct (query_reply net (ip s) (queries w)) as [[| n names] | e] eqn:Hq.
    + rewrite (collect_player_list_query_empty net s st w Hs Hl Hq).
      now apply Hfall.
    + eexists _, (n :: names), _, _.
      split; [apply (collect_player_list_query_names net s st w _ Hs Hl Hq); discriminate |].
      split; [apply heap_lookup_second | reflexivity].
    + rewrite (collect_player_list_query_error net s st w e Hs Hl Hq), (Hto e eq_refl).
      now apply Hfall.
  - rewrite (collect_player_list_no_query net s st w Hs).
    now apply Hfall.
Qed.

Lemma selection_cases (registry : list Server) (interaction : Interaction)
    (server : string) :
  server = "Default" \/ (exists s, get_server registry server = Return s) ->
  (server = "Default"
   /\ get_server_from_channel registry (channel_id interaction)
      = Raise (channel_not_found (channel_id interaction)))
  \/ exists s, selected registry interaction server s.
Proof.
  intros Hsel. destruct (String.eqb_spec server "Default") as [Hd | Hd].
  - destruct (get_server_from_channel_outcome registry (channel_id interaction))
      as [[s Hs] | Hmiss].
    + right. exists s. left. now split.
    + left. now split.
  - destruct Hsel as [Hsel | [s Hs]]; [contradiction |].
    right. exists s. right. now split.
Qed.

(** C3, amended.  When the selection is "Default" or the name of a
    registered server: if the address lookups succeed, the status attempts
    fail only with [Exception]s, the fetched status has a sample whenever its
    count is not 0, and the query fails only by timing out, [send_data]
    returns normally and sends exactly one reply: for a channel no server is
    bound to, the guidance message; when the status fetch is exhausted, the
    message "An unexpected error occurred".  An error of the lookup of the
    status fetch, and an error other than a timeout of the query or of its
    lookup, come out of [send_data], and no reply is sent. *)
Theorem send_data_always_replies (net : Network) (registry : list Server)
    (interaction : Interaction) (server : string) (hidden : bool) (w : World) :
  server = "Default" \/ (exists s, get_server registry server = Return s) ->
  let run := send_data net registry interaction server hidden w in
  ((forall addr n, lookup_reply net addr n = None) ->
   (forall addr n e, status_reply net addr n = Failure e -> is_Exception e = true) ->
   (forall s st,
      selected registry interaction server s ->
      (get_server_info net s (push w [EvDefer hidden])).1 = Return (Some st) ->
      online (players st) <> 0%Z ->
      sample (players st) <> None) ->
   (forall addr n e, query_reply net addr n = Failure e -> is_socket_timeout e = true) ->
   run.1 = Return tt
   /\ exists content,
        sent run.2 = sent w ++ [EvSend content]
        /\ (server = "Default" ->
            get_server_from_channel registry (channel_id interaction)
            = Raise (channel_not_found (channel_id interaction)) ->
            content = guidance)
        /\ (forall s,
              selected registry interaction server s ->
              (get_server_info net s (push w [EvDefer hidden])).1 = Return None ->
              content = "**An unexpected error occurred**"))
  /\ (forall s e,
        selected registry interaction server s ->
        lookup_reply net (ip s) (lookups w) = Some e ->
        run = (Raise e, push w [EvDefer hidden; EvLookup (ip s)]))
  /\ (forall s st w1 e,
        selected registry interaction server s ->
        get_server_info net s (push w [EvDefer hidden]) = (Return (Some st), w1) ->
        online (players st) <> 0%Z ->
        supports_querying s = true ->
        is_socket_timeout e = false ->
        lookup_reply net (ip s) (lookups w1) = Some e
        \/ (lookup_reply net (ip s) (lookups w1) = None
            /\ query_reply net (ip s) (queries w1) = Failure e) ->
        run.1 = Raise e /\ sent run.2 = sent w).
Proof.
  intros Hsel run. subst run. split; [| split].
  - intros Hlookup Hstatus Hsample Hquery.
    destruct (selection_cases registry interaction server Hsel)
      as [[Hd Hmiss] | [s Hs]].
    + rewrite (send_data_missing net registry interaction server hidden w Hd Hmiss).
      split; [reflexivity |]. exists guidance. cbn [snd]. rewrite sent_push.
      split; [reflexivity |]. split; [reflexivity |].
      intros s' [[_ Hs'] | [Hne _]] _; congruence.
    + assert (Hnot_missing :
                server = "Default" ->
                get_server_from_channel registry (channel_id interaction)
                = Raise (channel_not_found (channel_id interaction)) -> False).
      { intros Hd Hmiss. destruct Hs as [[_ Hs] | [Hne _]]; congruence. }
      destruct (get_server_info_returns net s (push w [EvDefer hidden])
                  (Hlookup _ _) (Hstatus _))
        as (r & evs & Hinfo & Hevs).
      assert (Hsent1 : sent (push (push w [EvDefer hidden]) (EvLookup (ip s) :: evs))
                       = sent w).
      { rewrite !sent_push. cbn [List.filter is_send].
        rewrite (fetch_events_filter is_send evs);
          [now rewrite !app_nil_r | | exact Hevs].
        now intros []. }
      destruct r as [st |].
      * assert (Hsome : forall s',
                  selected registry interaction server s' ->
                  (get_server_info net s' (push w [EvDefer hidden])).1 = Return None ->
                  False).
        { intros s' Hs' Hnone.
          rewrite <- (selected_functional _ _ _ _ _ Hs Hs'), Hinfo in Hnone.
          discriminate. }
        destruct (Z.eq_dec (online (players st)) 0%Z) as [Hon | Hon].
        -- rewrite (send_data_no_players net registry interaction server hidden
                      w _ s st Hs Hinfo Hon).
           split; [reflexivity |]. eexists. cbn [snd]. rewrite sent_extend, Hsent1.
           split; [reflexivity |].
           split; [intros Hd Hm; destruct (Hnot_missing Hd Hm) |].
           intros s' Hs' Hnone. destruct (Hsome s' Hs' Hnone).
        -- rewrite (send_data_online net registry interaction server hidden
                      w _ s st Hs Hinfo Hon).
           assert (Hst : sample (players st) <> None).
           { apply (Hsample s st Hs); [now rewrite Hinfo | exact Hon]. }
           destruct (collect_player_list_total net s st
                       (push (push w [EvDefer hidden]) (EvLookup (ip s) :: evs))
                       (Hlookup _ _) (Hquery _ _) Hst)
             as (l & names & objs & evs' & Hc & Hl & Hsend).
           rewrite (bind_Return _ _ _ _ _ Hc), (reply_with s st l _ names Hon Hl).
           split; [reflexivity |]. eexists. cbn [snd].
           unfold sent at 1. cbn [trace extend].
           rewrite !List.filter_app, Hsend, app_nil_r.
           fold (sent (push (push w [EvDefer hidden]) (EvLookup (ip s) :: evs))).
           rewrite Hsent1. cbn [List.filter is_send].
           split; [reflexivity |].
           split; [intros Hd Hm; destruct (Hnot_missing Hd Hm) |].
           intros s' Hs' Hnone. destruct (Hsome s' Hs' Hnone).
      * rewrite (send_data_unavailable net registry interaction server hidden
                   w _ s Hs Hinfo).
        split; [reflexivity |]. eexists. cbn [snd]. rewrite sent_push, Hsent1.
        split; [reflexivity |].
        split; [intros Hd Hm; destruct (Hnot_missing Hd Hm) | reflexivity].
  - intros s e Hs Hl.
    rewrite (send_data_fetch_raises net registry interaction server hidden w
               (push w [EvDefer hidden; EvLookup (ip s)]) s e Hs); [reflexivity |].
    unfold get_server_info, get_server_info_fuel.
    erewrite bind_Raise; [reflexivity |].
    rewrite (JavaServer_lookup_error net (ip s) (push w [EvDefer hidden]) e).
    + now rewrite push_push.
    + rewrite lookups_push. cbn. now rewrite Nat.add_0_r.
  - intros s st w1 e Hs Hinfo Hon Hq Hto Hfail.
    rewrite (send_data_online net registry interaction server hidden
               w w1 s st Hs Hinfo Hon).
    assert (Hsent1 : sent w1 = sent w).
    { destruct (get_server_info_events net s (push w [EvDefer hidden]))
        as (evs & Hw1 & Hevs).
      rewrite Hinfo in Hw1. cbn [snd] in Hw1. rewrite Hw1, !sent_push.
      cbn [List.filter is_send].
      rewrite (fetch_events_filter is_send evs);
        [now rewrite !app_nil_r | | exact Hevs].
      now intros []. }
    assert (Hc : exists evs,
              collect_player_list net s st w1 = (Raise e, extend w1 [[]] evs)
              /\ List.filter is_send evs = []).
    { destruct Hfail as [Hl | [Hl Hqr]].
      - eexists. rewrite (collect_player_list_lookup_error net s st w1 e Hq Hl), Hto.
        split; reflexivity.
      - eexists. rewrite (collect_player_list_query_error net s st w1 e Hq Hl Hqr), Hto.
        split; reflexivity. }
    destruct Hc as (evs & Hc & Hsend).
    rewrite (bind_Raise _ _ _ _ _ Hc). cbn [fst snd].
    split; [reflexivity |]. now rewrite sent_extend, Hsend, app_nil_r.
Qed.

(** * Instances *)

(** The retry bound on a network whose status attempts all time out, and on
    one that answers the third attempt. *)
Lemma get_server_info_retry_bound_witness :
  (get_server_info net_always_timeout survival world_empty).1 = Return None
  /\ attempts (get_server_info net_always_timeout survival world_empty).2 = 5
  /\ (get_server_info net_flaky survival world_empty).1 = Return (Some status_three)
  /\ attempts (get_server_info net_flaky survival world_empty).2 = 3.
Proof.
  destruct (get_server_info_retry_bound net_always_timeout survival world_empty eq_refl)
    as [Hall _].
  destruct Hall as [Hr Ha].
  { intros i _. exists (SocketTimeout "timed out"). split; reflexivity. }
  destruct (get_server_info_retry_bound net_flaky survival world_empty eq_refl)
    as [_ Hsome].
  destruct (Hsome 2 status_three) as [Hr' Ha'].
  { lia. }
  { intros i Hi. exists (SocketTimeout "timed out").
    destruct i as [| [| i]]; [split; reflexivity | split; reflexivity | lia]. }
  { reflexivity. }
  rewrite Hr, Hr'. repeat split; assumption.
Defined.

(** The same two names in two different list objects give the same text. *)
Lemma compose_response_deterministic_witness :
  heap world_alice_bob !! 0 = Some ["Alice"; "Bob"]
  /\ heap world_two_lists !! 1 = Some ["Alice"; "Bob"]
  /\ (compose_response survival status_three 0 world_alice_bob).1
     = (compose_response survival status_three 1 world_two_lists).1.
Proof.
  split; [reflexivity |]. split; [reflexivity |].
  apply (compose_response_deterministic survival status_three 0 1
           world_alice_bob world_two_lists ["Alice"; "Bob"]); reflexivity.
Defined.

(** With the registry of the program and status attempts that all time out,
    the handler replies with the generic error message. *)
Lemma send_data_always_replies_witness :
  (send_data net_always_timeout servers from_survival_channel "Default" true
     world_empty).1 = Return tt
  /\ sent (send_data net_always_timeout servers from_survival_channel "Default" true
             world_empty).2
     = [EvSend "**An unexpected error occurred**"].
Proof.
  assert (Hselected : forall s, selected servers from_survival_channel "Default" s ->
                                s = survival).
  { intros s [[_ Hs] | [Hne _]]; [| now elim Hne]. now injection Hs as <-. }
  destruct (send_data_always_replies net_always_timeout servers from_survival_channel
              "Default" true world_empty) as [Hreply _].
  - left. reflexivity.
  - destruct Hreply as [Hr [content [Hsent [_ Hnone]]]].
    + reflexivity.
    + intros addr n e [= <-]. reflexivity.
    + intros s st Hs Hinfo _. rewrite (Hselected s Hs) in Hinfo. discriminate.
    + intros addr n e [= <-]. reflexivity.
    + split; [exact Hr |]. rewrite Hsent.
      rewrite (Hnone survival); [reflexivity | left; split; reflexivity | reflexivity].
Defined.

(** Nobody online, and a list that holds two names: none of them is listed. *)
Lemma compose_response_no_players_witness :
  online (players status_none_online) = 0%Z
  /\ compose_response survival status_none_online 0 world_alice_bob
     = (Return ("**Spooncraft " +:+ name survival +:+ " Server**" +:+ nl
                  +:+ "**No online players**"), world_alice_bob).
Proof.
  split; [reflexivity |].
  apply (compose_response_no_players survival status_none_online 0 world_alice_bob).
  reflexivity.
Defined.

(** Two players online and an empty list. *)
Lemma compose_response_anonymous_witness :
  heap world_one_empty_list !! 0 = Some []
  /\ (1 <= online (players status_hidden_two))%Z
  /\ (compose_response survival status_hidden_two 0 world_one_empty_list).1
     = Return (online_response survival status_hidden_two ["Anonymous Player"]).
Proof.
  split; [reflexivity |]. split; [discriminate |].
  apply (compose_response_anonymous survival status_hidden_two 0 world_one_empty_list);
    [reflexivity | discriminate].
Defined.

(** Three players online: two names are followed by "...", three names are
    listed as they are. *)
Lemma compose_response_ellipsis_witness :
  (compose_response survival status_three 0 world_alice_bob).1
  = Return (online_response survival status_three ["Alice"; "Bob"; "..."])
  /\ compose_response survival status_three 0 world_three_names
     = (Return (online_response survival status_three ["Alice"; "Bob"; "Carol"]),
        world_three_names).
Proof.
  split.
  - destruct (compose_response_ellipsis survival status_three 0 world_alice_bob
                ["Alice"; "Bob"] eq_refl) as [Hshort _].
    destruct Hshort as [Hr _]; [discriminate | reflexivity | exact Hr].
  - destruct (compose_response_ellipsis survival status_three 0 world_three_names
                ["Alice"; "Bob"; "Carol"] eq_refl) as [_ Hfull].
    apply Hfull. discriminate.
Defined.

(** The query of a server that supports querying times out: the reply is
    composed from the sample of the status. *)
Lemma send_data_player_names_witness :
  composes_from
    (send_data net_query_timeout registry_querying from_survival_channel "Default"
       true world_empty)
    survival_querying status_three ["Alice"; "Bob"].
Proof.
  destruct (send_data_player_names net_query_timeout registry_querying
              from_survival_channel "Default" true world_empty
              (push world_empty
                 [EvDefer true; EvLookup (ip survival_querying);
                  EvStatus (ip survival_querying)])
              survival_querying status_three) as [Htimeout _].
  - left. split; reflexivity.
  - reflexivity.
  - discriminate.
  - reflexivity.
  - reflexivity.
  - destruct (Htimeout [mkPlayer "Alice"; mkPlayer "Bob"] eq_refl) as [Hto _].
    apply (Hto (SocketTimeout "timed out")); reflexivity.
Defined.

(** The list objects after the call, for an empty list and for a short one. *)
Lemma compose_response_appends_witness :
  heap (compose_response survival status_hidden_two 0 world_one_empty_list).2
  = [["Anonymous Player"]]
  /\ heap (compose_response survival status_three 0 world_alice_bob).2
     = [["Alice"; "Bob"; "..."]].
Proof.
  split.
  - destruct (compose_response_appends survival status_hidden_two 0
                world_one_empty_list [] eq_refl) as [Hempty _]; [discriminate |].
    rewrite Hempty; reflexivity.
  - destruct (compose_response_appends survival status_three 0
                world_alice_bob ["Alice"; "Bob"] eq_refl) as [_ [Hshort _]];
      [discriminate |].
    rewrite Hshort; [reflexivity | discriminate | reflexivity].
Defined.

(** A failing lookup: its error is the outcome, and the lookup the only event. *)
Lemma get_server_info_lookup_error_witness :
  lookup_reply net_lookup_fails (ip survival) (lookups world_empty)
  = Some (OtherException "lookup failed")
  /\ get_server_info net_lookup_fails survival world_empty
     = (Raise (OtherException "lookup failed"),
        push world_empty [EvLookup (ip survival)]).
Proof.
  split; [reflexivity |].
  destruct (get_server_info_lookup_error net_lookup_fails survival world_empty)
    as [Herr _].
  apply Herr. reflexivity.
Defined.

(** ** End-to-end scenarios *)

(** Scenario 2: three players online, two sampled, querying disabled: the
    reply lists "Alice, Bob, ..." with the counts "3/20". *)
Example scenario_sample_with_ellipsis :
  send_data net_query_refused servers from_survival_channel "Default" true world_empty
  = (Return tt,
     mkWorld [[]; ["Alice"; "Bob"; "..."]]
       [EvDefer true; EvLookup (ip survival); EvStatus (ip survival);
        EvPrint ["Alice"; "Bob"];
        EvSend ("**Spooncraft Survival Server**" +:+ nl
                  +:+ "**Online players (3/20):**" +:+ nl
                  +:+ "```Alice, Bob, ...```")]).
Proof. vm_compute. reflexivity. Qed.

(** Scenario 5: five timeouts, then the generic error message and no
    further call. *)
Example scenario_exhausted :
  let run :=
    send_data net_always_timeout servers from_survival_channel "Default" true
      world_empty in
  run.1 = Return tt
  /\ attempts run.2 = 5
  /\ queries run.2 = 0
  /\ sent run.2 = [EvSend "**An unexpected error occurred**"].
Proof. cbv zeta. repeat split; vm_compute; reflexivity. Qed.

(** An invocation from a channel no server is bound to. *)
Example scenario_unknown_channel :
  send_data net_always_timeout servers (mkInteraction 1) "Default" true world_empty
  = (Return tt, mkWorld [] [EvDefer true; EvSend guidance]).
Proof. vm_compute. reflexivity. Qed.

(** * Further properties *)

(** ** Resolution by name and the selectable names *)

Lemma get_server_skip (before rest : list Server) (server : string) :
  Forall (fun t => name t <> server) before ->
  get_server (before ++ rest) server = get_server rest server.
Proof.
  induction 1 as [| t before Ht _ IH]; [reflexivity |].
  apply String.eqb_neq in Ht. cbn. now rewrite Ht.
Qed.

Lemma get_server_found (registry : list Server) (server : string) (s : Server) :
  get_server registry server = Return s ->
  exists before after,
    registry = before ++ s :: after
    /\ name s = server
    /\ Forall (fun t => name t <> server) before.
Proof.
  induction registry as [| t rest IH]; cbn; [discriminate |].
  destruct (String.eqb_spec (name t) server) as [Ht | Ht].
  - intros [= <-]. exists [], rest. repeat split; [exact Ht | constructor].
  - intros Hrest. destruct (IH Hrest) as (before & after & -> & Hs & Hbefore).
    exists (t :: before), after. repeat split; [exact Hs |].
    now constructor.
Qed.

Lemma get_server_outcome (registry : list Server) (server : string) :
  (exists s, get_server registry server = Return s)
  \/ get_server registry server
     = Raise (ValueError ("Server '" +:+ server +:+ "' not found.")).
Proof.
  induction registry as [| t rest IH]; cbn; [now right |].
  destruct (String.eqb (name t) server); [left; eauto | exact IH].
Qed.

Lemma get_server_member (registry : list Server) (server : string) (s : Server) :
  get_server registry server = Return s -> s ∈ registry /\ name s = server.
Proof.
  intros H. destruct (get_server_found _ _ _ H) as (before & after & -> & Hs & _).
  split; [| exact Hs]. apply list_elem_of_In, in_or_app. right. now left.
Qed.

Lemma get_server_from_channel_member (registry : list Server) (channel_id : Z)
    (s : Server) :
  get_server_from_channel registry channel_id = Return s -> s ∈ registry.
Proof.
  intros H.
  destruct (get_server_from_channel_found _ _ _ H) as (before & after & -> & _ & _).
  apply list_elem_of_In, in_or_app. right. now left.
Qed.

(** X1.  For every registry and name, [get_server] returns [s] exactly when
    [s] is the first entry, in registry order, whose name is equal to the
    given one (an exact, case-sensitive comparison); it raises its
    [ValueError] exactly when no entry has that name; and it has no third
    outcome. *)
Theorem get_server_first_match (registry : list Server) (server : string) :
  (forall s,
     get_server registry server = Return s
     <-> exists before after,
           registry = before ++ s :: after
           /\ name s = server
           /\ Forall (fun t => name t <> server) before)
  /\ (get_server registry server
      = Raise (ValueError ("Server '" +:+ server +:+ "' not found."))
      <-> Forall (fun t => name t <> server) registry)
  /\ ((exists s, get_server registry server = Return s)
      \/ get_server registry server
         = Raise (ValueError ("Server '" +:+ server +:+ "' not found."))).
Proof.
  split; [| split].
  - intros s. split; [apply get_server_found |].
    intros (before & after & -> & Hs & Hbefore).
    rewrite get_server_skip by exact Hbefore.
    apply String.eqb_eq in Hs. cbn. now rewrite Hs.
  - split.
    + intros Hraise. apply Forall_forall. intros t Ht Hname.
      apply list_elem_of_In, in_split in Ht as (l1 & l2 & ->).
      revert Hraise. induction l1 as [| u l1 IH]; cbn.
      * apply String.eqb_eq in Hname. now rewrite Hname.
      * destruct (String.eqb (name u) server); [discriminate | exact IH].
    + intros Hall. rewrite <- (app_nil_r registry).
      now rewrite get_server_skip.
  - apply get_server_outcome.
Qed.

Lemma server_options_names (registry : list Server) (option : string) :
  option ∈ server_options registry
  <-> option = "Default"
      \/ exists s, s ∈ registry /\ secret s = false /\ name s = option.
Proof.
  unfold server_options. rewrite list_elem_of_In. cbn [In].
  rewrite in_map_iff. split.
  - intros [<- | (s & Hs & Hin)]; [now left | right].
    apply List.filter_In in Hin as [Hin Hsec].
    exists s. rewrite list_elem_of_In. repeat split; [exact Hin | | exact Hs].
    now destruct (secret s).
  - intros [-> | (s & Hin & Hsec & Hs)]; [now left | right].
    exists s. split; [exact Hs |]. apply List.filter_In.
    split; [now apply list_elem_of_In | now rewrite Hsec].
Qed.

Lemma get_server_of_member (registry : list Server) (s : Server) :
  s ∈ registry ->
  exists s', get_server registry (name s) = Return s' /\ name s' = name s.
Proof.
  intros Hin. destruct (get_server_outcome registry (name s)) as [[s' Hs'] | Hraise].
  - exists s'. split; [exact Hs' |]. now apply (get_server_member registry).
  - exfalso. induction registry as [| t rest IH].
    + now apply elem_of_nil in Hin.
    + cbn in Hraise. destruct (String.eqb_spec (name t) (name s)) as [Ht | Ht];
        [discriminate |].
      apply elem_of_cons in Hin as [-> | Hin]; [congruence | now apply IH].
Qed.

(** X2.  Every selectable option is "Default" or resolves: for every registry
    and every entry of [server_options], [get_server] returns an entry of the
    registry with that name, so the [ValueError] of [get_server] cannot come
    from an offered option.  Conversely "Default" and the name of every entry
    that is not secret are offered. *)
Theorem server_options_resolve (registry : list Server) :
  (forall option,
     option ∈ server_options registry ->
     option = "Default"
     \/ exists s, get_server registry option = Return s
                  /\ s ∈ registry /\ name s = option)
  /\ "Default" ∈ server_options registry
  /\ (forall s, s ∈ registry -> secret s = false ->
                name s ∈ server_options registry).
Proof.
  split; [| split].
  - intros option Hin. apply server_options_names in Hin as [-> | (s & Hs & _ & <-)];
      [now left | right].
    destruct (get_server_of_member registry s Hs) as (s' & Hget & Hname).
    exists s'. split; [exact Hget |]. split; [| exact Hname].
    now apply (get_server_member registry (name s)).
  - apply server_options_names. now left.
  - intros s Hs Hsec. apply server_options_names. right. now exists s.
Qed.

Lemma name_unique (registry : list Server) (s t : Server) :
  NoDup (map name registry) -> s ∈ registry -> t ∈ registry -> name s = name t ->
  s = t.
Proof.
  induction registry as [| u rest IH]; intros Hnd Hs Ht Heq.
  - now apply elem_of_nil in Hs.
  - cbn in Hnd. apply NoDup_cons in Hnd as [Hu Hnd].
    apply elem_of_cons in Hs as [-> | Hs]; apply elem_of_cons in Ht as [-> | Ht].
    + reflexivity.
    + exfalso. apply Hu. rewrite Heq. now apply list_elem_of_fmap_2.
    + exfalso. apply Hu. rewrite <- Heq. now apply list_elem_of_fmap_2.
    + now apply IH.
Qed.

(** X3.  When the names of the registry are pairwise different, a secret
    entry is never selected by name: the entry [get_server] returns for an
    offered option other than "Default" is not secret, and the name of a
    secret entry is not offered (unless it is "Default"). *)
Theorem server_options_hide_secret (registry : list Server) :
  NoDup (map name registry) ->
  (forall option s,
     option ∈ server_options registry -> option <> "Default" ->
     get_server registry option = Return s -> secret s = false)
  /\ (forall s, s ∈ registry -> secret s = true -> name s <> "Default" ->
                name s ∉ server_options registry).
Proof.
  intros Hnd. split.
  - intros option s Hin Hne Hget.
    apply server_options_names in Hin as [-> | (t & Ht & Hsec & Hname)];
      [contradiction |].
    destruct (get_server_member _ _ _ Hget) as [Hs Hs'].
    rewrite (name_unique registry s t Hnd Hs Ht); [exact Hsec | congruence].
  - intros s Hs Hsec Hne Hin.
    apply server_options_names in Hin as [Hd | (t & Ht & Hsect & Hname)];
      [contradiction |].
    rewrite (name_unique registry s t Hnd Hs Ht) in Hsec; congruence.
Qed.

(** Two entries with one name, the first of them secret: the offered name
    resolves to the secret entry. *)
Example shared_name_selects_secret :
  let registry := [mkServer "A" "h:1" [] true true; mkServer "A" "h:2" [] false true] in
  "A" ∈ server_options registry
  /\ get_server registry "A" = Return (mkServer "A" "h:1" [] true true).
Proof. cbv zeta. split; [| reflexivity]. apply server_options_names. right.
  exists (mkServer "A" "h:2" [] false true). repeat split. apply list_elem_of_In. cbn. tauto.
Qed.

(** ** The enhanced query *)

(** X4.  [get_players_query] makes a single attempt: one lookup, then at
    most one [query()] call, no [status()] call, no log line and no reply.
    An error of the lookup or of the query, a timeout included, comes out as
    it is (after a failed lookup no query is made); an answer is returned as
    a new list object that holds the names of the answer. *)
Theorem get_players_query_single_attempt (net : Network) (server : Server) (w : World) :
  let run := get_players_query net server w in
  (forall e,
     lookup_reply net (ip server) (lookups w) = Some e ->
     run = (Raise e, push w [EvLookup (ip server)]))
  /\ (forall e,
        lookup_reply net (ip server) (lookups w) = None ->
        query_reply net (ip server) (queries w) = Failure e ->
        run = (Raise e, push w [EvLookup (ip server); EvQuery (ip server)]))
  /\ (forall names,
        lookup_reply net (ip server) (lookups w) = None ->
        query_reply net (ip server) (queries w) = Answer names ->
        run = (Return (length (heap w)),
               extend w [names] [EvLookup (ip server); EvQuery (ip server)]))
  /\ lookups run.2 = S (lookups w)
  /\ queries run.2 <= S (queries w)
  /\ attempts run.2 = attempts w
  /\ sent run.2 = sent w.
Proof.
  cbv zeta.
  assert (Herr : forall e, lookup_reply net (ip server) (lookups w) = Some e ->
                 get_players_query net server w
                 = (Raise e, push w [EvLookup (ip server)])).
  { intros e He. unfold get_players_query.
    now rewrite (bind_Raise _ _ _ _ _ (JavaServer_lookup_error net _ _ _ He)). }
  split; [exact Herr |].
  split; [intros e; apply get_players_query_failure |].
  split; [intros names; apply get_players_query_answer |].
  destruct (lookup_reply net (ip server) (lookups w)) as [e |] eqn:Hl.
  - rewrite (Herr e eq_refl). cbn [snd].
    rewrite lookups_push, queries_push, attempts_push, sent_push. cbn.
    rewrite app_nil_r. repeat split; lia.
  - destruct (query_reply net (ip server) (queries w)) as [names | e] eqn:Hq.
    + rewrite (get_players_query_answer net server w names Hl Hq). cbn [snd].
      rewrite sent_extend. unfold lookups, queries, attempts, extend. cbn [trace].
      rewrite !List.filter_app, !length_app. cbn. rewrite app_nil_r. repeat split; lia.
    + rewrite (get_players_query_failure net server w e Hl Hq). cbn [snd].
      rewrite lookups_push, queries_push, attempts_push, sent_push. cbn.
      rewrite app_nil_r. repeat split; lia.
Qed.

(** ** The outcomes of the status fetch *)

Lemma caught_failureb_spec (net : Network) (addr : string) (w : World) (i : nat) :
  caught_failureb net addr w i = true <-> caught_failure net addr w i.
Proof.
  unfold caught_failureb, caught_failure.
  destruct (status_reply net addr (attempts w + i)) as [st | e].
  - split; [discriminate | intros (e & He & _); discriminate].
  - split; [intros He; now exists e | intros (e' & [= <-] & He); exact He].
Qed.

(** Either the first [n] attempts all fail and are caught, or there is a
    first attempt that answers or fails with an exception the loop lets
    through. *)
Lemma first_decisive_attempt (net : Network) (addr : string) (w : World) (n : nat) :
  (forall i, i < n -> caught_failure net addr w i)
  \/ exists k, k < n
               /\ (forall i, i < k -> caught_failure net addr w i)
               /\ caught_failureb net addr w k = false.
Proof.
  induction n as [| n IH]; [left; intros i Hi; lia |].
  destruct IH as [Hall | (k & Hk & Hbefore & Hdec)].
  - destruct (caught_failureb net addr w n) eqn:Hn.
    + left. intros i Hi. destruct (Nat.eq_dec i n) as [-> | Hne].
      * now apply caught_failureb_spec.
      * apply Hall. lia.
    + right. exists n. repeat split; [lia | exact Hall | exact Hn].
  - right. exists k. repeat split; [lia | exact Hbefore | exact Hdec].
Qed.

Section FetchOutcomes.

Variable net : Network.
Variable server : Server.
Variable w : World.
Hypothesis lookup_ok : lookup_reply net (ip server) (lookups w) = None.

Lemma attempts_after_lookup :
  attempts (push w [EvLookup (ip server)]) = attempts w.
Proof. rewrite attempts_push. cbn. lia. Qed.

Lemma caught_after_lookup (n : nat) :
  (forall i, i < n -> caught_failure net (ip server) w i) ->
  forall i, i < n ->
    exists e, status_reply net (address (mkJavaServer (ip server)))
                (attempts (push w [EvLookup (ip server)]) + i) = Failure e
              /\ is_Exception e = true.
Proof. intros H i Hi. rewrite attempts_after_lookup. exact (H i Hi). Qed.

(** The run of [get_server_info] after [k] caught failures. *)
Lemma get_server_info_after_failures (k : nat) :
  k <= MAX_RETRIES ->
  (forall i, i < k -> caught_failure net (ip server) w i) ->
  get_server_info net server w
  = status_loop net (S MAX_RETRIES - k) (mkJavaServer (ip server)) k
      (push w (EvLookup (ip server) :: retry_events net (ip server) (attempts w) 0 k)).
Proof.
  intros Hk Hfail. unfold get_server_info, get_server_info_fuel.
  rewrite (bind_Return _ _ _ _ _ (JavaServer_lookup_ok net _ _ lookup_ok)).
  replace (S MAX_RETRIES) with (k + (S MAX_RETRIES - k)) at 1 by lia.
  rewrite status_loop_failures;
    [| lia | now apply caught_after_lookup].
  cbn [address]. rewrite attempts_after_lookup, push_push. reflexivity.
Qed.

Lemma attempts_after_failures (k : nat) (evs : list event) :
  attempts (push w (EvLookup (ip server)
                      :: retry_events net (ip server) (attempts w) 0 k ++ evs))
  = attempts w + k + length (List.filter is_status evs).
Proof.
  rewrite attempts_push. cbn [List.filter is_lookup is_status].
  rewrite List.filter_app, length_app, retry_events_length. lia.
Qed.

Lemma get_server_info_exhausted :
  (forall i, i < MAX_RETRIES -> caught_failure net (ip server) w i) ->
  get_server_info net server w
  = (Return None,
     push w (EvLookup (ip server)
               :: retry_events net (ip server) (attempts w) 0 MAX_RETRIES)).
Proof.
  intros Hfail. rewrite (get_server_info_after_failures MAX_RETRIES) by (lia || exact Hfail).
  replace (S MAX_RETRIES - MAX_RETRIES) with 1 by lia. reflexivity.
Qed.

Lemma get_server_info_answered (k : nat) (st : StatusResponse) :
  k < MAX_RETRIES ->
  (forall i, i < k -> caught_failure net (ip server) w i) ->
  status_reply net (ip server) (attempts w + k) = Answer st ->
  get_server_info net server w
  = (Return (Some st),
     push w (EvLookup (ip server)
               :: retry_events net (ip server) (attempts w) 0 k
               ++ [EvStatus (ip server)])).
Proof.
  intros Hk Hfail Hans.
  rewrite (get_server_info_after_failures k) by (lia || exact Hfail).
  replace (S MAX_RETRIES - k) with (S (MAX_RETRIES - k)) by lia.
  cbn [status_loop].
  replace (k <? MAX_RETRIES)%nat with true by (symmetry; apply Nat.ltb_lt; lia).
  erewrite bind_Return.
  2: { apply status_attempt_answer. cbn [address].
       rewrite <- (app_nil_r (retry_events _ _ _ _ _)), attempts_after_failures.
       cbn [List.filter length]. rewrite Nat.add_0_r. exact Hans. }
  unfold mret, M_ret. rewrite push_push. reflexivity.
Qed.

Lemma get_server_info_uncaught (k : nat) (e : exn) :
  k < MAX_RETRIES ->
  (forall i, i < k -> caught_failure net (ip server) w i) ->
  status_reply net (ip server) (attempts w + k) = Failure e ->
  is_Exception e = false ->
  get_server_info net server w
  = (Raise e,
     push w (EvLookup (ip server)
               :: retry_events net (ip server) (attempts w) 0 k
               ++ [EvStatus (ip server)])).
Proof.
  intros Hk Hfail Hrep Hexc.
  rewrite (get_server_info_after_failures k) by (lia || exact Hfail).
  replace (S MAX_RETRIES - k) with (S (MAX_RETRIES - k)) by lia.
  cbn [status_loop].
  replace (k <? MAX_RETRIES)%nat with true by (symmetry; apply Nat.ltb_lt; lia).
  erewrite bind_Raise.
  2: { apply status_attempt_uncaught; [| exact Hexc]. cbn [address].
       rewrite <- (app_nil_r (retry_events _ _ _ _ _)), attempts_after_failures.
       cbn [List.filter length]. rewrite Nat.add_0_r. exact Hrep. }
  rewrite push_push. reflexivity.
Qed.

End FetchOutcomes.

Lemma status_loop_attempts_bound (net : Network) (fuel : nat) :
  forall (server_lookup : JavaServer) (count : nat) (w : World),
  exists evs,
    (status_loop net fuel server_lookup count w).2 = push w evs
    /\ Forall (fun ev => is_fetch_event ev = true) evs
    /\ length (List.filter is_status evs) <= MAX_RETRIES - count.
Proof.
  induction fuel as [| fuel IH]; intros server_lookup count w.
  - exists []. rewrite push_nil. split; [reflexivity | split; [constructor | cbn; unfold MAX_RETRIES in *; lia]].
  - cbn [status_loop]. destruct (count <? MAX_RETRIES)%nat eqn:Hc.
    2: { exists []. rewrite push_nil. split; [reflexivity | split; [constructor | cbn; unfold MAX_RETRIES in *; lia]]. }
    apply Nat.ltb_lt in Hc.
    destruct (status_reply net (address server_lookup) (attempts w)) as [st | e] eqn:Hr.
    + rewrite (bind_Return _ _ _ _ _ (status_attempt_answer net _ count _ _ Hr)).
      eexists. split; [reflexivity |]. split; [repeat constructor | cbn; unfold MAX_RETRIES in *; lia].
    + destruct (is_Exception e) eqn:He.
      * rewrite (bind_Return _ _ _ _ _ (status_attempt_failure net _ count _ _ Hr He)).
        destruct (IH server_lookup (count + 1)
                    (push w [EvStatus (address server_lookup); failure_warning e count]))
          as (evs & -> & Hevs & Hlen).
        rewrite push_push. eexists. split; [reflexivity |].
        split; [repeat constructor; exact Hevs |].
        cbn [app List.filter is_status failure_warning length].
        unfold MAX_RETRIES in *. lia.
      * rewrite (bind_Raise _ _ _ _ _ (status_attempt_uncaught net _ count _ _ Hr He)).
        eexists. split; [reflexivity |]. split; [repeat constructor | cbn; unfold MAX_RETRIES in *; lia].
Qed.

(** Every run of [get_server_info]: the lookup, then status calls and log
    lines, at most [MAX_RETRIES] of them status calls. *)
Lemma get_server_info_run (net : Network) (server : Server) (w : World) :
  exists evs,
    (get_server_info net server w).2 = push w (EvLookup (ip server) :: evs)
    /\ Forall (fun ev => is_fetch_event ev = true) evs
    /\ length (List.filter is_status evs) <= MAX_RETRIES
    /\ (get_server_info net server w).1 <> Stuck.
Proof.
  destruct (get_server_info_fuel_enough net 0 server w) as [_ Hns].
  unfold get_server_info, get_server_info_fuel in *.
  destruct (lookup_reply net (ip server) (lookups w)) as [e |] eqn:Hl.
  - rewrite (bind_Raise _ _ _ _ _ (JavaServer_lookup_error net _ _ _ Hl)).
    exists []. split; [reflexivity |]. split; [constructor |]. split; [cbn; lia | discriminate].
  - rewrite (bind_Return _ _ _ _ _ (JavaServer_lookup_ok net _ _ Hl)) in *.
    destruct (status_loop_attempts_bound net (S MAX_RETRIES) (mkJavaServer (ip server)) 0
                (push w [EvLookup (ip server)])) as (evs & Hw & Hevs & Hlen).
    exists evs. rewrite Hw, push_push.
    split; [reflexivity |]. split; [exact Hevs |]. split; [lia | exact Hns].
Qed.

(** X5.  Whatever the network replies, one call of [get_server_info] makes
    at most 5 [status()] calls, makes no query, sends no reply, leaves every
    list object as it is, and ends: it returns or raises. *)
Theorem get_server_info_at_most_five (net : Network) (server : Server) (w : World) :
  let run := get_server_info net server w in
  attempts run.2 <= attempts w + 5
  /\ queries run.2 = queries w
  /\ sent run.2 = sent w
  /\ heap run.2 = heap w
  /\ run.1 <> Stuck.
Proof.
  cbv zeta. destruct (get_server_info_run net server w) as (evs & -> & Hevs & Hlen & Hns).
  rewrite attempts_push, queries_push, sent_push.
  cbn [List.filter is_status is_query is_send].
  rewrite (fetch_events_filter is_query evs), (fetch_events_filter is_send evs);
    [| now intros [] | exact Hevs | now intros [] | exact Hevs].
  rewrite app_nil_r. unfold MAX_RETRIES in Hlen. cbn [length].
  repeat split; [lia | lia | exact Hns].
Qed.

Section FetchOutcomeTheorems.

Variable net : Network.
Variable server : Server.
Variable w : World.

(** With a lookup that succeeds, a run of [get_server_info] is one of
    three: exhausted, answered, or interrupted by an exception the loop does
    not catch. *)
Lemma get_server_info_outcome :
  lookup_reply net (ip server) (lookups w) = None ->
  ((forall i, i < MAX_RETRIES -> caught_failure net (ip server) w i)
   /\ (get_server_info net server w).1 = Return None)
  \/ (exists k st,
        k < MAX_RETRIES
        /\ (forall i, i < k -> caught_failure net (ip server) w i)
        /\ status_reply net (ip server) (attempts w + k) = Answer st
        /\ (get_server_info net server w).1 = Return (Some st))
  \/ (exists k e,
        k < MAX_RETRIES
        /\ (forall i, i < k -> caught_failure net (ip server) w i)
        /\ status_reply net (ip server) (attempts w + k) = Failure e
        /\ is_Exception e = false
        /\ (get_server_info net server w).1 = Raise e).
Proof.
  intros Hl.
  destruct (first_decisive_attempt net (ip server) w MAX_RETRIES)
    as [Hall | (k & Hk & Hbefore & Hdec)].
  - left. split; [exact Hall |]. now rewrite get_server_info_exhausted.
  - right. unfold caught_failureb in Hdec.
    destruct (status_reply net (ip server) (attempts w + k)) as [st | e] eqn:Hr.
    + left. exists k, st. repeat split; try assumption.
      now rewrite (get_server_info_answered net server w Hl k st).
    + right. exists k, e. repeat split; try assumption.
      now rewrite (get_server_info_uncaught net server w Hl k e).
Qed.

(** X6.  With a lookup that succeeds, [get_server_info] returns [None]
    exactly when each of the 5 status attempts fails with a timeout or
    another [Exception]; it has then made exactly 5 attempts. *)
Theorem get_server_info_none_iff :
  lookup_reply net (ip server) (lookups w) = None ->
  ((get_server_info net server w).1 = Return None
   <-> forall i, i < 5 -> caught_failure net (ip server) w i)
  /\ ((get_server_info net server w).1 = Return None ->
      attempts (get_server_info net server w).2 = attempts w + 5).
Proof.
  intros Hl.
  assert (Hiff : (get_server_info net server w).1 = Return None
                 <-> forall i, i < 5 -> caught_failure net (ip server) w i).
  { split.
    - intros Hnone.
      destruct (get_server_info_outcome Hl)
        as [[Hall _] | [(k & st & _ & _ & _ & Hr) | (k & e & _ & _ & _ & _ & Hr)]];
        [exact Hall | congruence | congruence].
    - intros Hall. now rewrite get_server_info_exhausted. }
  split; [exact Hiff |].
  intros Hnone. pose proof (proj1 Hiff Hnone) as Hall.
  rewrite get_server_info_exhausted by assumption. cbn [snd].
  rewrite <- (app_nil_r (retry_events _ _ _ _ _)).
  rewrite (attempts_after_failures net server w MAX_RETRIES []).
  unfold MAX_RETRIES. cbn [List.filter length]. lia.
Qed.

(** X7.  With a lookup that succeeds, [get_server_info] returns the status
    [st] exactly when some attempt among the first 5 answers [st] after
    nothing but caught failures: the status returned is the answer to the
    last attempt made, never an earlier or a later one. *)
Theorem get_server_info_status_iff (st : StatusResponse) :
  lookup_reply net (ip server) (lookups w) = None ->
  (get_server_info net server w).1 = Return (Some st)
  <-> exists k,
        k < 5
        /\ (forall i, i < k -> caught_failure net (ip server) w i)
        /\ status_reply net (ip server) (attempts w + k) = Answer st.
Proof.
  intros Hl. split.
  - intros Hsome.
    destruct (get_server_info_outcome Hl)
      as [[_ Hr] | [(k & st' & Hk & Hbefore & Hans & Hr) | (k & e & _ & _ & _ & _ & Hr)]];
      [congruence | | congruence].
    exists k. repeat split; [exact Hk | exact Hbefore | congruence].
  - intros (k & Hk & Hbefore & Hans).
    now rewrite (get_server_info_answered net server w Hl k st).
Qed.

(** X8.  With a lookup that succeeds, [get_server_info] raises [e] exactly
    when some attempt among the first 5, after nothing but caught failures,
    fails with [e] and [e] is not an [Exception] (a [KeyboardInterrupt], a
    cancellation): such an error is not retried and no warning is logged for
    it, the failed [status()] call is the last event. *)
Theorem get_server_info_raise_iff (e : exn) :
  lookup_reply net (ip server) (lookups w) = None ->
  ((get_server_info net server w).1 = Raise e
   <-> exists k,
         k < 5
         /\ (forall i, i < k -> caught_failure net (ip server) w i)
         /\ status_reply net (ip server) (attempts w + k) = Failure e
         /\ is_Exception e = false)
  /\ (forall k,
        k < 5 ->
        (forall i, i < k -> caught_failure net (ip server) w i) ->
        status_reply net (ip server) (attempts w + k) = Failure e ->
        is_Exception e = false ->
        (get_server_info net server w).2
        = push w (EvLookup (ip server)
                    :: retry_events net (ip server) (attempts w) 0 k
                    ++ [EvStatus (ip server)])).
Proof.
  intros Hl. split; [split |].
  - intros Hraise.
    destruct (get_server_info_outcome Hl)
      as [[_ Hr] | [(k & st & _ & _ & _ & Hr)
                   | (k & e' & Hk & Hbefore & Hrep & Hexc & Hr)]];
      [congruence | congruence |].
    assert (e' = e) as -> by congruence.
    exists k. repeat split; assumption.
  - intros (k & Hk & Hbefore & Hrep & Hexc).
    now rewrite (get_server_info_uncaught net server w Hl k e).
  - intros k Hk Hbefore Hrep Hexc.
    now rewrite (get_server_info_uncaught net server w Hl k e).
Qed.

End FetchOutcomeTheorems.

(** ** Every run of the command handler *)

Lemma select_server_run (registry : list Server) (interaction : Interaction)
    (server : string) (w : World) :
  (exists s,
     select_server registry interaction server w = (Return (Some s), w)
     /\ s ∈ registry
     /\ selected registry interaction server s)
  \/ (select_server registry interaction server w
      = (Return None, push w [EvSend guidance])
      /\ server = "Default")
  \/ (exists e,
        select_server registry interaction server w = (Raise e, w)
        /\ server <> "Default"
        /\ get_server registry server = Raise e).
Proof.
  destruct (String.eqb_spec server "Default") as [Hd | Hd].
  - destruct (get_server_from_channel_outcome registry (channel_id interaction))
      as [[s Hs] | Hmiss].
    + left. exists s.
      assert (Hsel : selected registry interaction server s) by (left; now split).
      split; [now apply select_server_selected |].
      split; [now apply (get_server_from_channel_member _ _ _ Hs) | exact Hsel].
    + right. left. split; [now apply select_server_missing | exact Hd].
  - destruct (get_server_outcome registry server) as [[s Hs] | Hraise].
    + left. exists s.
      assert (Hsel : selected registry interaction server s) by (right; now split).
      split; [now apply select_server_selected |].
      split; [now apply (get_server_member _ _ _ Hs) | exact Hsel].
    + right. right. eexists. split; [| split; [exact Hd | exact Hraise]].
      unfold select_server. apply String.eqb_neq in Hd. rewrite Hd.
      unfold mbind, M_bind, lift. now rewrite Hraise.
Qed.

(** Every run of lines 217-226: new list objects and events, among them no
    reply, no status call and at most one lookup and one query; none at all
    for a server that does not support querying. *)
Lemma collect_player_list_run (net : Network) (s : Server) (st : StatusResponse)
    (w : World) :
  exists r objs evs,
    collect_player_list net s st w = (r, extend w objs evs)
    /\ List.filter is_send evs = []
    /\ List.filter is_status evs = []
    /\ List.filter is_defer evs = []
    /\ length (List.filter is_query evs) <= 1
    /\ length (List.filter is_lookup evs) <= 1
    /\ (supports_querying s = false -> evs = [])
    /\ match r with
       | Return l => exists names, heap (extend w objs evs) !! l = Some names
       | Raise _ => True
       | Stuck => False
       end.
Proof.
  assert (Hfall : forall objs evs,
            exists r objs',
              fallback_outcome st w objs evs = (r, extend w objs' evs)
              /\ match r with
                 | Return l => exists names, heap (extend w objs' evs) !! l = Some names
                 | Raise _ => True
                 | Stuck => False
                 end).
  { intros objs evs. destruct (sample (players st)) as [sampled |] eqn:Hsampled.
    - destruct (fallback_outcome_Some st w objs evs sampled Hsampled) as [Hout Hheap].
      eexists _, _. split; [exact Hout |]. eexists. exact Hheap.
    - eexists _, _. split; [now apply fallback_outcome_None | exact I]. }
  destruct (supports_querying s) eqn:Hs.
  - destruct (lookup_reply net (ip s) (lookups w)) as [e |] eqn:Hl.
    + rewrite (collect_player_list_lookup_error net s st w e Hs Hl).
      destruct (is_socket_timeout e).
      * destruct (Hfall [[]] [EvLookup (ip s); backup_log s]) as (r & objs & -> & Hr).
        exists r, objs, [EvLookup (ip s); backup_log s].
        split; [reflexivity |]. cbn.
        repeat split; try lia; try discriminate. exact Hr.
      * do 3 eexists. split; [reflexivity |]. cbn.
        repeat split; try lia; try discriminate.
    + destruct (query_reply net (ip s) (queries w)) as [[| n names] | e] eqn:Hq.
      * rewrite (collect_player_list_query_empty net s st w Hs Hl Hq).
        destruct (Hfall [[]; []] [EvLookup (ip s); EvQuery (ip s); EvPrint []])
          as (r & objs & -> & Hr).
        exists r, objs, [EvLookup (ip s); EvQuery (ip s); EvPrint []].
        split; [reflexivity |]. cbn.
        repeat split; try lia; try discriminate. exact Hr.
      * do 3 eexists.
        split; [apply (collect_player_list_query_names net s st w _ Hs Hl Hq);
                discriminate |].
        cbn. repeat split; try lia; try discriminate.
        eexists. apply heap_lookup_second.
      * rewrite (collect_player_list_query_error net s st w e Hs Hl Hq).
        destruct (is_socket_timeout e).
        -- destruct (Hfall [[]] [EvLookup (ip s); EvQuery (ip s); backup_log s])
             as (r & objs & -> & Hr).
           exists r, objs, [EvLookup (ip s); EvQuery (ip s); backup_log s].
           split; [reflexivity |]. cbn.
           repeat split; try lia; try discriminate. exact Hr.
        -- do 3 eexists. split; [reflexivity |]. cbn.
           repeat split; try lia; try discriminate.
  - rewrite (collect_player_list_no_query net s st w Hs).
    destruct (Hfall [[]] []) as (r & objs & -> & Hr).
    exists r, objs, []. split; [reflexivity |]. cbn.
    repeat split; try lia. exact Hr.
Qed.

Lemma send_data_select_raises (net : Network) (registry : list Server)
    (interaction : Interaction) (server : string) (hidden : bool) (w : World)
    (e : exn) :
  select_server registry interaction server (push w [EvDefer hidden])
  = (Raise e, push w [EvDefer hidden]) ->
  send_data net registry interaction server hidden w
  = (Raise e, push w [EvDefer hidden]).
Proof.
  intros Hsel. unfold send_data.
  erewrite bind_Return by reflexivity.
  now apply bind_Raise.
Qed.

Lemma fetch_events_counts (evs : list event) :
  Forall (fun ev => is_fetch_event ev = true) evs ->
  List.filter is_send evs = []
  /\ List.filter is_query evs = []
  /\ List.filter is_lookup evs = []
  /\ List.filter is_defer evs = [].
Proof.
  intros H. repeat split; apply fetch_events_filter; try exact H; now intros [].
Qed.

(** Every run of [send_data]: the deferral, then the events [evs]. *)
Lemma send_data_run (net : Network) (registry : list Server)
    (interaction : Interaction) (server : string) (hidden : bool) (w : World) :
  let run := send_data net registry interaction server hidden w in
  exists evs,
    trace run.2 = trace w ++ EvDefer hidden :: evs
    /\ List.filter is_defer evs = []
    /\ length (List.filter is_status evs) <= 5
    /\ length (List.filter is_query evs) <= 1
    /\ length (List.filter is_lookup evs) <= 2
    /\ (Forall (fun s => supports_querying s = false) registry ->
        List.filter is_query evs = [] /\ length (List.filter is_lookup evs) <= 1)
    /\ ((run.1 = Return tt /\ exists content, List.filter is_send evs = [EvSend content])
        \/ (exists e, run.1 = Raise e) /\ List.filter is_send evs = []).
Proof.
  cbv zeta.
  destruct (select_server_run registry interaction server (push w [EvDefer hidden]))
    as [(s & Hsel & Hin & Hs) | [[Hsel Hd] | (e & Hsel & Hd & Hraise)]].
  - destruct (get_server_info_run net s (push w [EvDefer hidden]))
      as (evs1 & Hw1 & Hevs1 & Hlen1 & Hns).
    destruct (fetch_events_counts evs1 Hevs1) as (Hsend1 & Hquery1 & Hlookup1 & Hdefer1).
    unfold MAX_RETRIES in Hlen1.
    destruct (get_server_info net s (push w [EvDefer hidden])) as [r1 w1] eqn:Hinfo.
    cbn [fst snd] in Hw1, Hns. subst w1.
    destruct r1 as [[st |] | e |]; [| | | contradiction].
    + destruct (Z.eq_dec (online (players st)) 0%Z) as [Hon | Hon].
      * rewrite (send_data_no_players net registry interaction server hidden
                   w _ s st Hs Hinfo Hon).
        exists (EvLookup (ip s) :: evs1
                  ++ [EvSend (header s +:+ "**No online players**")]).
        cbn [snd trace extend push heap].
        rewrite <- !app_assoc. split; [reflexivity |].
        cbn [List.filter is_defer is_status is_query is_lookup is_send length].
        rewrite !List.filter_app, !length_app, Hsend1, Hquery1, Hlookup1, Hdefer1.
        cbn. repeat split; try lia. left. split; [reflexivity | now eexists].
      * rewrite (send_data_online net registry interaction server hidden
                   w _ s st Hs Hinfo Hon).
        destruct (collect_player_list_run net s st
                    (push (push w [EvDefer hidden]) (EvLookup (ip s) :: evs1)))
          as (r & objs & evs2 & Hc & Hsend2 & Hstatus2 & Hdefer2 & Hq2 & Hl2
              & Hnq & Hr).
        destruct r as [l | e |]; [| | contradiction].
        -- destruct Hr as [names Hnames].
           rewrite (bind_Return _ _ _ _ _ Hc), (reply_with s st l _ names Hon Hnames).
           exists (EvLookup (ip s) :: evs1 ++ evs2
                     ++ [EvPrint names;
                         EvSend (online_response s st (listed st names))]).
           cbn [snd trace extend push heap].
           rewrite <- !app_assoc. split; [reflexivity |].
           cbn [List.filter is_defer is_status is_query is_lookup is_send length].
           rewrite !List.filter_app, !length_app, Hsend1, Hquery1, Hlookup1, Hdefer1,
             Hsend2, Hstatus2, Hdefer2.
           cbn. repeat split; try lia.
           ++ rewrite (Hnq (proj1 (Forall_forall _ _) H s Hin)).
              reflexivity.
           ++ rewrite (Hnq (proj1 (Forall_forall _ _) H s Hin)).
              cbn. lia.
           ++ left. split; [reflexivity | now eexists].
        -- rewrite (bind_Raise _ _ _ _ _ Hc).
           exists (EvLookup (ip s) :: evs1 ++ evs2).
           cbn [snd trace extend push heap].
           rewrite <- !app_assoc. split; [reflexivity |].
           cbn [List.filter is_defer is_status is_query is_lookup is_send length].
           rewrite !List.filter_app, !length_app, Hsend1, Hquery1, Hlookup1, Hdefer1,
             Hsend2, Hstatus2, Hdefer2.
           cbn. repeat split; try lia.
           ++ rewrite (Hnq (proj1 (Forall_forall _ _) H s Hin)).
              reflexivity.
           ++ rewrite (Hnq (proj1 (Forall_forall _ _) H s Hin)).
              cbn. lia.
           ++ right. split; [now eexists | reflexivity].
    + rewrite (send_data_unavailable net registry interaction server hidden
                 w _ s Hs Hinfo).
      exists (EvLookup (ip s) :: evs1 ++ [EvSend "**An unexpected error occurred**"]).
      cbn [snd trace extend push heap].
      rewrite <- !app_assoc. split; [reflexivity |].
      cbn [List.filter is_defer is_status is_query is_lookup is_send length].
      rewrite !List.filter_app, !length_app, Hsend1, Hquery1, Hlookup1, Hdefer1.
      cbn. repeat split; try lia. left. split; [reflexivity | now eexists].
    + rewrite (send_data_fetch_raises net registry interaction server hidden
                 w _ s e Hs Hinfo).
      exists (EvLookup (ip s) :: evs1).
      cbn [snd trace extend push heap].
      rewrite <- !app_assoc. split; [reflexivity |].
      cbn [List.filter is_defer is_status is_query is_lookup is_send length].
      rewrite Hsend1, Hquery1, Hlookup1, Hdefer1.
      cbn. repeat split; try lia. right. split; [now eexists | reflexivity].
  - assert (Hrun : send_data net registry interaction server hidden w
                   = (Return tt, push w [EvDefer hidden; EvSend guidance])).
    { unfold send_data. erewrite bind_Return by reflexivity.
      erewrite bind_Return by exact Hsel.
      unfold mret, M_ret, push. cbn [heap trace]. now rewrite <- app_assoc. }
    rewrite Hrun. exists [EvSend guidance]. cbn.
    repeat split; try lia. left. split; [reflexivity | now eexists].
  - rewrite (send_data_select_raises net registry interaction server hidden w e Hsel).
    exists []. cbn. repeat split; try lia. right. split; [now eexists | reflexivity].
Qed.

Lemma sent_of_trace (w w' : World) (evs : list event) :
  trace w' = trace w ++ evs -> sent w' = sent w ++ List.filter is_send evs.
Proof. intros H. unfold sent. now rewrite H, List.filter_app. Qed.

Lemma counts_of_trace (w w' : World) (evs : list event) :
  trace w' = trace w ++ evs ->
  attempts w' = attempts w + length (List.filter is_status evs)
  /\ queries w' = queries w + length (List.filter is_query evs)
  /\ lookups w' = lookups w + length (List.filter is_lookup evs).
Proof.
  intros H. unfold attempts, queries, lookups.
  now rewrite H, !List.filter_app, !length_app.
Qed.

(** X9.  Whatever the registry, the network and the invocation, a run of
    [send_data] ends in one of two ways: it returns, and has sent exactly one
    reply; or it raises, and has sent no reply.  It never sends two replies
    and never returns without one. *)
Theorem send_data_replies_once (net : Network) (registry : list Server)
    (interaction : Interaction) (server : string) (hidden : bool) (w : World) :
  let run := send_data net registry interaction server hidden w in
  (run.1 = Return tt /\ exists content, sent run.2 = sent w ++ [EvSend content])
  \/ (exists e, run.1 = Raise e) /\ sent run.2 = sent w.
Proof.
  cbv zeta.
  destruct (send_data_run net registry interaction server hidden w)
    as (evs & Htr & _ & _ & _ & _ & _ & Hend).
  rewrite (sent_of_trace w _ _ Htr). cbn [List.filter is_send].
  destruct Hend as [[Hr [content Hc]] | [Hr Hc]]; rewrite Hc.
  - left. split; [exact Hr | now exists content].
  - right. split; [exact Hr | now rewrite app_nil_r].
Qed.

(** X10.  In every run of [send_data] the deferral comes first, with the
    visibility flag of the caller, before any lookup, status call, query or
    reply; and the invocation is deferred once only. *)
Theorem send_data_defers_first (net : Network) (registry : list Server)
    (interaction : Interaction) (server : string) (hidden : bool) (w : World) :
  exists evs,
    trace (send_data net registry interaction server hidden w).2
    = trace w ++ EvDefer hidden :: evs
    /\ List.filter is_defer evs = [].
Proof.
  destruct (send_data_run net registry interaction server hidden w)
    as (evs & Htr & Hdefer & _).
  now exists evs.
Qed.

(** X11.  No retry at the handler: one run of [send_data] makes at most 5
    [status()] calls, at most one [query()] call and at most 2 lookups,
    whatever the network replies. *)
Theorem send_data_call_budget (net : Network) (registry : list Server)
    (interaction : Interaction) (server : string) (hidden : bool) (w : World) :
  let run := send_data net registry interaction server hidden w in
  attempts run.2 <= attempts w + 5
  /\ queries run.2 <= queries w + 1
  /\ lookups run.2 <= lookups w + 2.
Proof.
  cbv zeta.
  destruct (send_data_run net registry interaction server hidden w)
    as (evs & Htr & _ & Hs & Hq & Hl & _).
  destruct (counts_of_trace w _ _ Htr) as (-> & -> & ->).
  cbn [List.filter is_status is_query is_lookup]. lia.
Qed.

(** X12.  The enhanced query is only made for a server that supports it:
    with a registry none of whose entries supports querying, as [servers]
    is, no run of [send_data] makes a [query()] call, and it makes at most
    one lookup. *)
Theorem send_data_no_query_unless_supported (net : Network) (registry : list Server)
    (interaction : Interaction) (server : string) (hidden : bool) (w : World) :
  Forall (fun s => supports_querying s = false) registry ->
  let run := send_data net registry interaction server hidden w in
  queries run.2 = queries w /\ lookups run.2 <= lookups w + 1.
Proof.
  intros Hreg. cbv zeta.
  destruct (send_data_run net registry interaction server hidden w)
    as (evs & Htr & _ & _ & _ & _ & Hnq & _).
  destruct (Hnq Hreg) as [Hq Hl].
  destruct (counts_of_trace w _ _ Htr) as (_ & -> & ->).
  cbn [List.filter is_query is_lookup]. rewrite Hq. cbn [length]. lia.
Qed.

Lemma sample_names_anonymous (l : list Player) :
  Forall (fun p => player_name p = "Anonymous Player") l -> sample_names l = [].
Proof.
  unfold sample_names. induction 1 as [| p l Hp _ IH]; [reflexivity |].
  cbn [List.filter]. rewrite Hp. exact IH.
Qed.

Section Replies.

Variable net : Network.
Variable registry : list Server.
Variable interaction : Interaction.
Variable server : string.
Variable hidden : bool.
Variables w w1 : World.
Variable s : Server.

Hypothesis Hselected : selected registry interaction server s.

(** X13.  A status with a count of 0 is answered at once: the reply is the
    header and the "No online players" line, and nothing else happens after
    the status fetch, also for a server that supports querying: no lookup,
    no query. *)
Theorem send_data_zero_skips_query (st : StatusResponse) :
  get_server_info net s (push w [EvDefer hidden]) = (Return (Some st), w1) ->
  online (players st) = 0%Z ->
  let run := send_data net registry interaction server hidden w in
  run.1 = Return tt
  /\ trace run.2 = trace w1 ++ [EvSend (header s +:+ "**No online players**")]
  /\ queries run.2 = queries w
  /\ lookups run.2 = lookups w + 1.
Proof.
  intros Hinfo Hon. cbv zeta.
  rewrite (send_data_no_players net registry interaction server hidden w w1 s st
             Hselected Hinfo Hon).
  cbn [fst snd extend trace]. split; [reflexivity |]. split; [reflexivity |].
  destruct (get_server_info_run net s (push w [EvDefer hidden]))
    as (evs1 & Hw1 & Hevs1 & _ & _).
  rewrite Hinfo in Hw1. cbn [snd] in Hw1. subst w1.
  destruct (fetch_events_counts evs1 Hevs1) as (_ & Hquery1 & Hlookup1 & _).
  unfold queries, lookups, push, extend. cbn [trace heap].
  rewrite !List.filter_app, !length_app.
  cbn [List.filter is_query is_lookup length].
  rewrite Hquery1, Hlookup1. cbn. lia.
Qed.

(** X14.  When the status fetch is exhausted the handler stops fetching: it
    sends "An unexpected error occurred" and nothing else happens after
    the fetch, no query and no further status call. *)
Theorem send_data_unavailable_stops :
  get_server_info net s (push w [EvDefer hidden]) = (Return None, w1) ->
  let run := send_data net registry interaction server hidden w in
  run = (Return tt, push w1 [EvSend "**An unexpected error occurred**"])
  /\ attempts run.2 = attempts w1
  /\ queries run.2 = queries w.
Proof.
  intros Hinfo. cbv zeta.
  rewrite (send_data_unavailable net registry interaction server hidden w w1 s
             Hselected Hinfo).
  split; [reflexivity |]. cbn [snd].
  destruct (get_server_info_run net s (push w [EvDefer hidden]))
    as (evs1 & Hw1 & Hevs1 & _ & _).
  rewrite Hinfo in Hw1. cbn [snd] in Hw1. subst w1.
  destruct (fetch_events_counts evs1 Hevs1) as (_ & Hquery1 & _ & _).
  rewrite attempts_push, !queries_push.
  cbn [List.filter is_status is_query length]. rewrite Hquery1. cbn. lia.
Qed.


(** X16.  No double label: when the status has a sample, possibly empty,
    whose players are all named "Anonymous Player", and the count is at
    least 1, a server that does not support querying is answered with a list
    of exactly one entry, "Anonymous Player", however many sampled entries
    carry that name. *)
Theorem send_data_anonymous_sample (st : StatusResponse) (l : list Player) :
  supports_querying s = false ->
  get_server_info net s (push w [EvDefer hidden]) = (Return (Some st), w1) ->
  (1 <= online (players st))%Z ->
  sample (players st) = Some l ->
  Forall (fun p => player_name p = "Anonymous Player") l ->
  let run := send_data net registry interaction server hidden w in
  run.1 = Return tt
  /\ trace run.2
     = trace w1 ++ [EvPrint [];
                    EvSend (online_response s st ["Anonymous Player"])].
Proof.
  intros Hs Hinfo Hon Hsample Hall. cbv zeta.
  pose proof (sample_names_anonymous l Hall) as Hnames.
  rewrite (send_data_online net registry interaction server hidden w w1 s st
             Hselected Hinfo) by lia.
  pose proof (collect_player_list_no_query net s st w1 Hs) as Hc.
  destruct (fallback_outcome_Some st w1 [[]] [] l Hsample) as [Hout Hheap].
  rewrite Hout in Hc.
  rewrite (bind_Return _ _ _ _ _ Hc), (reply_with s st _ _ (sample_names l))
    by (lia || exact Hheap).
  rewrite Hnames, listed_empty by exact Hon.
  cbn [fst snd trace extend]. now rewrite app_nil_r.
Qed.

(** X17.  When the query answers with a non-empty list at least as long as
    the count, the reply lists exactly the names of the query, in its order
    and with no "..." entry; the sample of the status is not used.  The list
    is printed twice, by line 222 and by line 227. *)
Theorem send_data_full_query_list (st : StatusResponse) (names : list string) :
  supports_querying s = true ->
  get_server_info net s (push w [EvDefer hidden]) = (Return (Some st), w1) ->
  online (players st) <> 0%Z ->
  lookup_reply net (ip s) (lookups w1) = None ->
  query_reply net (ip s) (queries w1) = Answer names ->
  names <> [] ->
  (online (players st) <= Z.of_nat (length names))%Z ->
  let run := send_data net registry interaction server hidden w in
  run.1 = Return tt
  /\ trace run.2
     = trace w1 ++ [EvLookup (ip s); EvQuery (ip s); EvPrint names; EvPrint names;
                    EvSend (online_response s st names)].
Proof.
  intros Hs Hinfo Hon Hl Hq Hne Hlen. cbv zeta.
  rewrite (send_data_online net registry interaction server hidden w w1 s st
             Hselected Hinfo Hon).
  rewrite (bind_Return _ _ _ _ _
             (collect_player_list_query_names net s st w1 names Hs Hl Hq Hne)).
  rewrite (reply_with s st _ _ names Hon) by apply heap_lookup_second.
  rewrite listed_full by exact Hlen.
  cbn [fst snd trace extend]. now rewrite <- app_assoc.
Qed.

End Replies.

(** ** The ready handler *)

Section ReadyProperties.

Variable sync_reply : nat -> option exn.

Lemma syncs_emit_sync (g : option Z) (b : MyBot) :
  syncs (bot_emit (BotSync g) b) = S (syncs b).
Proof.
  unfold syncs, bot_emit. cbn [bot_trace].
  rewrite List.filter_app, length_app. cbn. lia.
Qed.

Lemma syncs_emit_info (msg : string) (b : MyBot) :
  syncs (bot_emit (BotInfo msg) b) = syncs b.
Proof.
  unfold syncs, bot_emit. cbn [bot_trace].
  rewrite List.filter_app, length_app. cbn. lia.
Qed.

Lemma guild_sync_events_syncs (gs : list Guild) :
  length (List.filter is_sync (guild_sync_events gs)) = length gs.
Proof.
  unfold guild_sync_events. induction gs as [| g gs IH]; [reflexivity |].
  cbn [flat_map app List.filter is_sync length]. now rewrite IH.
Qed.

(** The guild loop when no sync fails. *)
Lemma sync_guilds_ok (gs : list Guild) :
  forall b,
    (forall i, i < length gs -> sync_reply (syncs b + i) = None) ->
    sync_guilds sync_reply gs b
    = (Return tt,
       mkMyBot (synced b) (guilds b) (bot_trace b ++ guild_sync_events gs)).
Proof.
  induction gs as [| g gs IH]; intros b Hok.
  - cbn. rewrite app_nil_r. now destruct b.
  - cbn [sync_guilds]. unfold tree_sync.
    rewrite <- (Nat.add_0_r (syncs b)), (Hok 0) by (cbn; lia).
    rewrite IH.
    + cbn [bot_emit synced guilds bot_trace guild_sync_events flat_map].
      now rewrite <- !app_assoc.
    + intros i Hi. rewrite syncs_emit_info, syncs_emit_sync.
      replace (S (syncs b) + i) with (syncs b + S i) by lia.
      apply Hok. cbn. lia.
Qed.

(** The guild loop never turns [synced] on, only adds events, and an error
    it raises is the error of its last [tree.sync] call. *)
Lemma sync_guilds_run (gs : list Guild) :
  forall b,
    let run := sync_guilds sync_reply gs b in
    synced run.2 = synced b
    /\ guilds run.2 = guilds b
    /\ run.1 <> Stuck
    /\ (exists tr, bot_trace run.2 = bot_trace b ++ tr)
    /\ (forall e, run.1 = Raise e ->
          exists tr g, bot_trace run.2 = tr ++ [BotSync g]
                       /\ sync_reply (syncs run.2 - 1) = Some e).
Proof.
  induction gs as [| g gs IH]; intros b; cbv zeta.
  - cbn. split; [reflexivity |]. split; [reflexivity |]. split; [discriminate |].
    split; [exists []; now rewrite app_nil_r | discriminate].
  - cbn [sync_guilds]. unfold tree_sync.
    destruct (sync_reply (syncs b)) as [e |] eqn:Hr.
    + cbn [fst snd]. split; [reflexivity |]. split; [reflexivity |].
      split; [discriminate |]. split; [now eexists |].
      intros e' [= <-]. exists (bot_trace b), (Some (guild_id g)).
      split; [reflexivity |].
      rewrite syncs_emit_sync. now replace (S (syncs b) - 1) with (syncs b) by lia.
    + destruct (IH (bot_emit (BotInfo ("- " +:+ guild_name g))
                      (bot_emit (BotSync (Some (guild_id g))) b)))
        as (Hs & Hg & Hns & [tr Htr] & Hraise).
      split; [exact Hs |]. split; [exact Hg |]. split; [exact Hns |].
      split; [| exact Hraise].
      rewrite Htr. cbn [bot_emit bot_trace]. rewrite <- !app_assoc. now eexists.
Qed.

Lemma on_ready_synced (b : MyBot) :
  synced b = true ->
  on_ready sync_reply b = (Return tt, bot_emit (BotInfo "Ready!") b).
Proof. intros H. unfold on_ready. now rewrite H. Qed.

(** X18.  The first ready event of a bot that has not synced, when no sync
    fails: one global [tree.sync()], then for each guild, in order, its sync
    and the log line of its name, then "Ready!"; [1 + len(guilds)] syncs in
    all, and [synced] is set. *)
Theorem on_ready_first_sync (b : MyBot) :
  synced b = false ->
  (forall i, i <= length (guilds b) -> sync_reply (syncs b + i) = None) ->
  on_ready sync_reply b
  = (Return tt,
     mkMyBot true (guilds b)
       (bot_trace b ++ BotSync None :: guild_sync_events (guilds b)
                    ++ [BotInfo "Ready!"]))
  /\ syncs (on_ready sync_reply b).2 = syncs b + 1 + length (guilds b).
Proof.
  intros Hs Hok.
  assert (Hrun : on_ready sync_reply b
                 = (Return tt,
                    mkMyBot true (guilds b)
                      (bot_trace b ++ BotSync None :: guild_sync_events (guilds b)
                                   ++ [BotInfo "Ready!"]))).
  { unfold on_ready. rewrite Hs. cbn [negb]. unfold tree_sync.
    rewrite <- (Nat.add_0_r (syncs b)), (Hok 0) by lia.
    rewrite sync_guilds_ok.
    - unfold bot_emit. cbn [synced guilds bot_trace]. now rewrite <- !app_assoc.
    - intros i Hi. rewrite syncs_emit_sync, Nat.add_succ_comm.
      apply Hok. cbn [bot_emit guilds] in Hi. lia. }
  split; [exact Hrun |]. rewrite Hrun. unfold syncs. cbn [snd bot_trace].
  rewrite List.filter_app, length_app. cbn [List.filter is_sync length].
  rewrite List.filter_app, length_app, guild_sync_events_syncs. cbn. lia.
Qed.

End ReadyProperties.

(** X19.  Sync happens once: an [on_ready] that returns leaves [synced] set,
    and every later ready event, whatever the guilds are by then and whatever
    the platform would reply, makes no [tree.sync] call and only logs
    "Ready!". *)
Theorem on_ready_syncs_once (sync_reply : nat -> option exn) (b b1 : MyBot) :
  on_ready sync_reply b = (Return tt, b1) ->
  synced b1 = true
  /\ forall (later_reply : nat -> option exn) (gs : list Guild),
       on_ready later_reply (mkMyBot (synced b1) gs (bot_trace b1))
       = (Return tt, mkMyBot true gs (bot_trace b1 ++ [BotInfo "Ready!"])).
Proof.
  intros Hrun.
  assert (Hs : synced b1 = true).
  { unfold on_ready in Hrun. destruct (synced b) eqn:Hb; cbn [negb] in Hrun.
    - injection Hrun as <-. exact Hb.
    - destruct (tree_sync sync_reply None b) as [[[] | e |] b'];
        [| discriminate | discriminate].
      destruct (sync_guilds sync_reply (guilds b') b') as [[[] | e |] b''];
        [| discriminate | discriminate].
      now injection Hrun as <-. }
  split; [exact Hs |]. intros later_reply gs. rewrite Hs. reflexivity.
Qed.

(** What the guild loop has done when it raises: it has synced and logged
    the guilds before the one whose sync failed. *)
Lemma sync_guilds_raise (sync_reply : nat -> option exn) (gs : list Guild) :
  forall b b1 e,
    sync_guilds sync_reply gs b = (Raise e, b1) ->
    synced b1 = synced b
    /\ guilds b1 = guilds b
    /\ exists done g rest,
         gs = done ++ g :: rest
         /\ bot_trace b1
            = bot_trace b ++ guild_sync_events done ++ [BotSync (Some (guild_id g))]
         /\ sync_reply (syncs b + length done) = Some e.
Proof.
  induction gs as [| g gs IH]; intros b b1 e Hrun; [discriminate |].
  cbn [sync_guilds] in Hrun. unfold tree_sync in Hrun.
  destruct (sync_reply (syncs b)) as [e0 |] eqn:Hr.
  - injection Hrun as <- <-. split; [reflexivity |]. split; [reflexivity |].
    exists [], g, gs. split; [reflexivity |]. split; [reflexivity |].
    now rewrite Nat.add_0_r.
  - apply IH in Hrun as (Hs & Hg & done & g' & rest & -> & Htr & Hrep).
    split; [exact Hs |]. split; [exact Hg |].
    exists (g :: done), g', rest. split; [reflexivity |]. split.
    + rewrite Htr. cbn [bot_emit bot_trace guild_sync_events flat_map].
      now rewrite <- !app_assoc.
    + rewrite syncs_emit_info, syncs_emit_sync in Hrep.
      cbn [length]. now rewrite <- Nat.add_succ_comm.
Qed.

Lemma guild_sync_events_not_ready (gs : list Guild) :
  BotInfo "Ready!" ∉ guild_sync_events gs.
Proof.
  unfold guild_sync_events. induction gs as [| g gs IH]; cbn [flat_map app].
  - apply not_elem_of_nil.
  - intros Hin. apply elem_of_cons in Hin as [Hin | Hin]; [discriminate |].
    apply elem_of_cons in Hin as [Hin | Hin]; [| exact (IH Hin)].
    change ("- " +:+ guild_name g) with (String "-" (String " " (guild_name g))) in Hin.
    discriminate.
Qed.

(** X20.  A sync that fails leaves the bot unsynced: when [on_ready] raises,
    the bot was unsynced and still is; what it has done since is the global
    sync alone (when that failed), or the global sync, the sync and log line
    of the guilds before the failing one, and the failing sync, so "Ready!"
    has not been logged; the error is the one of that last [tree.sync] call;
    and the next ready event starts over with the global sync. *)
Theorem on_ready_failure_unsynced (sync_reply : nat -> option exn) (b b1 : MyBot)
    (e : exn) :
  on_ready sync_reply b = (Raise e, b1) ->
  synced b = false
  /\ synced b1 = false
  /\ guilds b1 = guilds b
  /\ (bot_trace b1 = bot_trace b ++ [BotSync None]
      \/ exists done g rest,
           guilds b = done ++ g :: rest
           /\ bot_trace b1
              = bot_trace b ++ BotSync None :: guild_sync_events done
                            ++ [BotSync (Some (guild_id g))])
  /\ (exists evs, bot_trace b1 = bot_trace b ++ evs /\ BotInfo "Ready!" ∉ evs)
  /\ sync_reply (syncs b1 - 1) = Some e
  /\ forall later_reply, exists r b2 tr,
       on_ready later_reply b1 = (r, b2)
       /\ bot_trace b2 = bot_trace b1 ++ BotSync None :: tr.
Proof.
  intros Hrun. unfold on_ready in Hrun.
  destruct (synced b) eqn:Hb; cbn [negb] in Hrun; [discriminate |].
  assert (Hfacts :
            synced b1 = false
            /\ guilds b1 = guilds b
            /\ (bot_trace b1 = bot_trace b ++ [BotSync None]
                \/ exists done g rest,
                     guilds b = done ++ g :: rest
                     /\ bot_trace b1
                        = bot_trace b ++ BotSync None :: guild_sync_events done
                                      ++ [BotSync (Some (guild_id g))])
            /\ sync_reply (syncs b1 - 1) = Some e).
  { unfold tree_sync in Hrun.
    destruct (sync_reply (syncs b)) as [e0 |] eqn:Hr.
    - injection Hrun as <- <-. cbn [synced guilds bot_emit bot_trace].
      split; [exact Hb |]. split; [reflexivity |]. split; [now left |].
      rewrite syncs_emit_sync. now replace (S (syncs b) - 1) with (syncs b) by lia.
    - destruct (sync_guilds sync_reply (guilds (bot_emit (BotSync None) b))
                  (bot_emit (BotSync None) b)) as [[[] | e0 |] b'] eqn:Hsg;
        [discriminate | | discriminate].
      injection Hrun as <- <-.
      apply sync_guilds_raise in Hsg
        as (Hs & Hg & done & g & rest & Hgs & Htr & Hrep).
      cbn [bot_emit synced guilds bot_trace] in Hs, Hg, Hgs, Htr.
      split; [now rewrite Hs |]. split; [exact Hg |]. split.
      + right. exists done, g, rest. split; [exact Hgs |].
        rewrite Htr. now rewrite <- !app_assoc.
      + rewrite syncs_emit_sync in Hrep.
        replace (syncs b' - 1) with (S (syncs b) + length done); [exact Hrep |].
        unfold syncs. rewrite Htr, !List.filter_app, !length_app.
        rewrite guild_sync_events_syncs. cbn. lia. }
  destruct Hfacts as (Hs1 & Hg1 & Hshape & Hrep).
  split; [reflexivity |]. split; [exact Hs1 |]. split; [exact Hg1 |].
  split; [exact Hshape |]. split.
  - destruct Hshape as [-> | (done & g & rest & _ & ->)].
    + eexists. split; [reflexivity |].
      intros Hin. apply elem_of_cons in Hin as [Hin | Hin]; [discriminate |].
      now apply elem_of_nil in Hin.
    + eexists. split; [reflexivity |].
      intros Hin. apply elem_of_cons in Hin as [Hin | Hin]; [discriminate |].
      apply elem_of_app in Hin as [Hin | Hin].
      * exact (guild_sync_events_not_ready done Hin).
      * apply elem_of_cons in Hin as [Hin | Hin]; [discriminate |].
        now apply elem_of_nil in Hin.
  - split; [exact Hrep |].
    intros later_reply. unfold on_ready. rewrite Hs1. cbn [negb]. unfold tree_sync.
    destruct (later_reply (syncs b1)) as [e0 |].
    + exists (Raise e0), (bot_emit (BotSync None) b1), [].
      split; reflexivity.
    + pose proof (sync_guilds_run later_reply (guilds (bot_emit (BotSync None) b1))
                    (bot_emit (BotSync None) b1)) as Hg.
      cbv zeta in Hg. destruct Hg as (_ & _ & _ & [tr Htr] & _).
      destruct (sync_guilds later_reply (guilds (bot_emit (BotSync None) b1))
                  (bot_emit (BotSync None) b1)) as [[[] | e1 |] b2] eqn:Hsg;
        cbn [snd] in Htr.
      * do 3 eexists. split; [reflexivity |]. cbn [bot_emit bot_trace].
        rewrite Htr. cbn [bot_emit bot_trace]. rewrite <- !app_assoc. reflexivity.
      * do 3 eexists. split; [reflexivity |].
        rewrite Htr. cbn [bot_emit bot_trace]. rewrite <- !app_assoc. reflexivity.
      * do 3 eexists. split; [reflexivity |].
        rewrite Htr. cbn [bot_emit bot_trace]. rewrite <- !app_assoc. reflexivity.
Qed.

(** ** Instances of the further properties *)

(** "Creative" is offered and resolves to the entry of that name. *)
Lemma server_options_resolve_witness :
  "Creative" ∈ server_options servers
  /\ exists s, get_server servers "Creative" = Return s
               /\ s ∈ servers /\ name s = "Creative".
Proof.
  assert (Hin : "Creative" ∈ server_options servers)
    by compute_done.
  split; [exact Hin |].
  destruct (server_options_resolve servers) as [Hres _].
  destruct (Hres "Creative" Hin) as [Hd | Hs]; [discriminate | exact Hs].
Defined.

(** The names of [servers] are pairwise different, and "Survival" resolves to
    an entry that is not secret. *)
Lemma server_options_hide_secret_witness :
  NoDup (map name servers)
  /\ secret survival = false.
Proof.
  assert (Hnd : NoDup (map name servers))
    by compute_done.
  split; [exact Hnd |].
  destruct (server_options_hide_secret servers Hnd) as [Hsel _].
  apply (Hsel "Survival" survival).
  - compute_done.
  - discriminate.
  - reflexivity.
Defined.

(** A refused query connection comes out of [get_players_query] as it is,
    after one lookup and one query. *)
Lemma get_players_query_single_attempt_witness :
  get_players_query net_query_refused survival_querying world_empty
  = (Raise (OtherException "[Errno 111] Connection refused"),
     push world_empty [EvLookup (ip survival_querying); EvQuery (ip survival_querying)]).
Proof.
  destruct (get_players_query_single_attempt net_query_refused survival_querying
              world_empty) as (_ & Hfail & _).
  apply Hfail; reflexivity.
Defined.

(** Five timeouts give [None]. *)
Lemma get_server_info_none_iff_witness :
  lookup_reply net_always_timeout (ip survival) (lookups world_empty) = None
  /\ (get_server_info net_always_timeout survival world_empty).1 = Return None.
Proof.
  split; [reflexivity |].
  destruct (get_server_info_none_iff net_always_timeout survival world_empty eq_refl)
    as [[_ Hnone] _].
  apply Hnone. intros i _. exists (SocketTimeout "timed out"). split; reflexivity.
Defined.

(** Two timeouts and an answer give the answer. *)
Lemma get_server_info_status_iff_witness :
  lookup_reply net_flaky (ip survival) (lookups world_empty) = None
  /\ (get_server_info net_flaky survival world_empty).1 = Return (Some status_three).
Proof.
  split; [reflexivity |].
  apply (get_server_info_status_iff net_flaky survival world_empty status_three eq_refl).
  exists 2. split; [lia |]. split; [| reflexivity].
  intros i Hi. exists (SocketTimeout "timed out").
  destruct i as [| [| i]]; [split; reflexivity | split; reflexivity | lia].
Defined.

(** A timeout and an interrupt: the interrupt comes out. *)
Lemma get_server_info_raise_iff_witness :
  lookup_reply net_interrupted (ip survival) (lookups world_empty) = None
  /\ (get_server_info net_interrupted survival world_empty).1
     = Raise (BaseExit "KeyboardInterrupt").
Proof.
  split; [reflexivity |].
  destruct (get_server_info_raise_iff net_interrupted survival world_empty
              (BaseExit "KeyboardInterrupt") eq_refl) as [[_ Hraise] _].
  apply Hraise. exists 1. split; [lia |]. split; [| split; reflexivity].
  intros i Hi. exists (SocketTimeout "timed out").
  destruct i as [| i]; [split; reflexivity | lia].
Defined.

(** No entry of [servers] supports querying: no query is made. *)
Lemma send_data_no_query_unless_supported_witness :
  Forall (fun s => supports_querying s = false) servers
  /\ queries (send_data net_query_three servers from_survival_channel "Default" true
                world_empty).2 = 0.
Proof.
  assert (Hreg : Forall (fun s => supports_querying s = false) servers)
    by (repeat constructor).
  split; [exact Hreg |].
  destruct (send_data_no_query_unless_supported net_query_three servers
              from_survival_channel "Default" true world_empty Hreg) as [Hq _].
  exact Hq.
Defined.

(** Nobody online on a server that supports querying: no query. *)
Lemma send_data_zero_skips_query_witness :
  queries (send_data net_nobody registry_querying from_survival_channel "Default" true
             world_empty).2 = 0.
Proof.
  destruct (send_data_zero_skips_query net_nobody registry_querying
              from_survival_channel "Default" true world_empty world_after_status
              survival_querying) with (st := status_none_online)
    as (_ & _ & Hq & _).
  - left. split; reflexivity.
  - reflexivity.
  - reflexivity.
  - exact Hq.
Defined.

(** Five timeouts: the generic message, and nothing after the fetch. *)
Lemma send_data_unavailable_stops_witness :
  sent (send_data net_always_timeout servers from_survival_channel "Default" true
          world_empty).2
  = [EvSend "**An unexpected error occurred**"].
Proof.
  destruct (send_data_unavailable_stops net_always_timeout servers
              from_survival_channel "Default" true world_empty
              (get_server_info net_always_timeout survival
                 (push world_empty [EvDefer true])).2
              survival) as (Hrun & _).
  - left. split; reflexivity.
  - reflexivity.
  - rewrite Hrun. reflexivity.
Defined.


(** Two sampled sentinel entries: one "Anonymous Player" in the reply. *)
Lemma send_data_anonymous_sample_witness :
  sent (send_data net_anonymous servers from_survival_channel "Default" true
          world_empty).2
  = [EvSend (online_response survival status_anonymous_two ["Anonymous Player"])].
Proof.
  destruct (send_data_anonymous_sample net_anonymous servers
              from_survival_channel "Default" true world_empty world_after_status
              survival) with (st := status_anonymous_two)
                             (l := [mkPlayer "Anonymous Player";
                                    mkPlayer "Anonymous Player"]) as (_ & Htr).
  - left. split; reflexivity.
  - reflexivity.
  - reflexivity.
  - discriminate.
  - reflexivity.
  - repeat constructor.
  - unfold sent. rewrite Htr. reflexivity.
Defined.

(** Three online and three names from the query: no "...". *)
Lemma send_data_full_query_list_witness :
  sent (send_data net_query_three registry_querying from_survival_channel "Default"
          true world_empty).2
  = [EvSend (online_response survival_querying status_three
               ["Alice"; "Bob"; "Carol"])].
Proof.
  destruct (send_data_full_query_list net_query_three registry_querying
              from_survival_channel "Default" true world_empty world_after_status
              survival_querying) with (st := status_three)
                                      (names := ["Alice"; "Bob"; "Carol"])
    as (_ & Htr).
  - left. split; reflexivity.
  - reflexivity.
  - reflexivity.
  - discriminate.
  - reflexivity.
  - reflexivity.
  - discriminate.
  - discriminate.
  - unfold sent. rewrite Htr. reflexivity.
Defined.

(** A new bot in two guilds: three syncs at its first ready event. *)
Lemma on_ready_first_sync_witness :
  syncs (on_ready sync_always_ok (MyBot_init two_guilds)).2 = 3.
Proof.
  destruct (on_ready_first_sync sync_always_ok (MyBot_init two_guilds)) as [_ Hn].
  - reflexivity.
  - intros i _. reflexivity.
  - exact Hn.
Defined.

(** After its first ready event the bot is synced. *)
Lemma on_ready_syncs_once_witness :
  synced (on_ready sync_always_ok (MyBot_init two_guilds)).2 = true.
Proof.
  destruct (on_ready_syncs_once sync_always_ok (MyBot_init two_guilds)
              (on_ready sync_always_ok (MyBot_init two_guilds)).2) as [Hs _].
  - reflexivity.
  - exact Hs.
Defined.

(** The sync of the first guild fails: the bot stays unsynced. *)
Lemma on_ready_failure_unsynced_witness :
  on_ready sync_second_fails (MyBot_init two_guilds)
  = (Raise (OtherException "HTTPException"),
     (on_ready sync_second_fails (MyBot_init two_guilds)).2)
  /\ synced (on_ready sync_second_fails (MyBot_init two_guilds)).2 = false
  /\ exists evs,
       bot_trace (on_ready sync_second_fails (MyBot_init two_guilds)).2
       = bot_trace (MyBot_init two_guilds) ++ evs
       /\ BotInfo "Ready!" ∉ evs.
Proof.
  split; [reflexivity |].
  destruct (on_ready_failure_unsynced sync_second_fails (MyBot_init two_guilds)
              (on_ready sync_second_fails (MyBot_init two_guilds)).2
              (OtherException "HTTPException") eq_refl)
    as (_ & Hs & _ & _ & Hready & _).
  split; [exact Hs | exact Hready].
Defined.
